(** * The runtime type algebra of [wandb/sdk/interface/dtypes.py]

    A shallow embedding of the descriptor classes ([Type] and its twelve
    registered subclasses), of [TypeRegistry], of the serialization helpers and
    of the union-resolution procedure, followed by the properties of the
    specification that were checked against them.

    Python values are an inductive type, exceptions are a result of the
    functions, and the calls that Python resolves at run time (a method looked
    up on an object, a function calling itself through the registry) go
    through a table of entry points that is unfolded a bounded number of
    times. *)

From Stdlib Require Import String Ascii List ZArith Bool Arith Lia DecimalString.
From Stdlib Require Import Sorted.
Import ListNotations.
Local Open Scope string_scope.
#[local] Set Warnings "-register-all".

(* ------------------------------------------------------------------------- *)
(** ** Values *)

(** The subclasses of [Type] that the module registers (lines 249-602). *)
Inductive WBClass : Set :=
| NeverType | AnyType | UnknownType | NoneType | StringType | NumberType
| BooleanType | ObjectType | ConstType | UnionType | ListType | DictType.

(** The classes a value can have: the built-in ones the module names, the
    metaclass [type] (the class of every class object), the descriptor
    classes, and any other class, known by its name only. *)
Inductive PyClass : Set :=
| cls_NoneType | cls_str | cls_int | cls_float | cls_bool
| cls_list | cls_tuple | cls_set | cls_frozenset | cls_dict
| cls_type
| cls_wb (c : WBClass)
| cls_other (qualname : string).

(** Python objects.  A float is the dyadic number [m * 2^e]; a set is listed
    in its iteration order; a dict has string keys (the keys of JSON objects
    and of [type_map]) and keeps its insertion order; an instance of a class
    without a model is its class name and its identity.  [PyWB c p] is an
    instance of the descriptor class [c] whose attribute [_params] is unset
    ([None]) or holds the dict [p]. *)
Inductive PyObj : Type :=
| PyNone
| PyStr (s : string)
| PyInt (z : Z)
| PyFloat (m e : Z)
| PyBool (b : bool)
| PyList (xs : list PyObj)
| PyTuple (xs : list PyObj)
| PySet (xs : list PyObj)
| PyFrozenset (xs : list PyObj)
| PyDict (items : list (string * PyObj))
| PyClassObj (c : PyClass)
| PyWB (c : WBClass) (_params : option (list (string * PyObj)))
| PyInstance (class_name : string) (id : nat).

Definition Dict : Type := list (string * PyObj).

(** A descriptor seen as [self]: its class and its [_params] attribute. *)
Record WBType : Type := mkType { __class__ : WBClass; _params : option Dict }.

Definition obj_of (t : WBType) : PyObj := PyWB (__class__ t) (_params t).
Coercion obj_of : WBType >-> PyObj.

(** [Type.name] of each subclass. *)
Definition name (c : WBClass) : string :=
  match c with
  | NeverType => "never" | AnyType => "any" | UnknownType => "unknown"
  | NoneType => "none" | StringType => "text" | NumberType => "number"
  | BooleanType => "boolean" | ObjectType => "object" | ConstType => "const"
  | UnionType => "union" | ListType => "list" | DictType => "dictionary"
  end.

(** [Type.types] of each subclass. *)
Definition types (c : WBClass) : list PyClass :=
  match c with
  | NoneType => [cls_NoneType]
  | StringType => [cls_str]
  | NumberType => [cls_int; cls_float]
  | BooleanType => [cls_bool]
  | ListType => [cls_list; cls_tuple; cls_set; cls_frozenset]
  | DictType => [cls_dict]
  | _ => []
  end.

Definition WBClass_eq_dec (a b : WBClass) : {a = b} + {a <> b}.
Proof. decide equality. Defined.

Definition PyClass_eq_dec (a b : PyClass) : {a = b} + {a <> b}.
Proof. decide equality; [apply WBClass_eq_dec | apply string_dec]. Defined.

Definition WBClass_eqb (a b : WBClass) : bool :=
  if WBClass_eq_dec a b then true else false.

Definition PyClass_eqb (a b : PyClass) : bool :=
  if PyClass_eq_dec a b then true else false.

(** [x.__class__] *)
Definition py_class (x : PyObj) : PyClass :=
  match x with
  | PyNone => cls_NoneType
  | PyStr _ => cls_str
  | PyInt _ => cls_int
  | PyFloat _ _ => cls_float
  | PyBool _ => cls_bool
  | PyList _ => cls_list
  | PyTuple _ => cls_tuple
  | PySet _ => cls_set
  | PyFrozenset _ => cls_frozenset
  | PyDict _ => cls_dict
  | PyClassObj _ => cls_type
  | PyWB c _ => cls_wb c
  | PyInstance n _ => cls_other n
  end.

Definition WBClass___name__ (c : WBClass) : string :=
  match c with
  | NeverType => "NeverType" | AnyType => "AnyType"
  | UnknownType => "UnknownType" | NoneType => "NoneType"
  | StringType => "StringType" | NumberType => "NumberType"
  | BooleanType => "BooleanType" | ObjectType => "ObjectType"
  | ConstType => "ConstType" | UnionType => "UnionType"
  | ListType => "ListType" | DictType => "DictType"
  end.

(** [c.__name__] *)
Definition __name__ (c : PyClass) : string :=
  match c with
  | cls_NoneType => "NoneType" | cls_str => "str" | cls_int => "int"
  | cls_float => "float" | cls_bool => "bool" | cls_list => "list"
  | cls_tuple => "tuple" | cls_set => "set" | cls_frozenset => "frozenset"
  | cls_dict => "dict" | cls_type => "type"
  | cls_wb c => WBClass___name__ c
  | cls_other n => n
  end.

Definition is_None (x : PyObj) : bool :=
  match x with PyNone => true | _ => false end.

(** [isinstance(x, c)] for a descriptor class [c]: the registered classes all
    derive from [Type] directly, so it is a test of the class. *)
Definition isinstance (x : PyObj) (c : WBClass) : bool :=
  match x with PyWB c' _ => WBClass_eqb c' c | _ => false end.

(** [isinstance(x, Type)] *)
Definition isinstance_Type (x : PyObj) : bool :=
  match x with PyWB _ _ => true | _ => false end.

(** [isinstance(x, list) or isinstance(x, tuple) or isinstance(x, set) or
    isinstance(x, frozenset)], the test of lines 487-490 and 526-529. *)
Definition is_list_like (x : PyObj) : bool :=
  match x with
  | PyList _ | PyTuple _ | PySet _ | PyFrozenset _ => true
  | _ => false
  end.

(** Truth value of an object ([if x:], [x or y]). *)
Definition truthy (x : PyObj) : bool :=
  match x with
  | PyNone => false
  | PyStr s => negb (String.eqb s EmptyString)
  | PyInt z => negb (Z.eqb z 0)
  | PyFloat m _ => negb (Z.eqb m 0)
  | PyBool b => b
  | PyList xs | PyTuple xs | PySet xs | PyFrozenset xs =>
      match xs with [] => false | _ => true end
  | PyDict d => match d with [] => false | _ => true end
  | _ => true
  end.

(* ------------------------------------------------------------------------- *)
(** ** Exceptions and results *)

Inductive PyErr : Set :=
| TypeError | KeyError | IndexError | AttributeError | AssertionError.

(** The outcome of a call: a value, an exception that reaches the caller, or
    the bound on the unfolding of the entry points was too small. *)
Inductive Res (A : Type) : Type :=
| Ok (a : A)
| Raise (e : PyErr)
| OutOfFuel.
Arguments Ok {A} a.
Arguments Raise {A} e.
Arguments OutOfFuel {A}.

Definition bind {A B : Type} (m : Res A) (k : A -> Res B) : Res B :=
  match m with
  | Ok a => k a
  | Raise e => Raise e
  | OutOfFuel => OutOfFuel
  end.

Notation "x <- m ;; k" := (bind m (fun x => k))
  (at level 61, m at next level, right associativity).

(** [assert b] *)
Definition py_assert (b : bool) : Res unit :=
  if b then Ok tt else Raise AssertionError.

(** An exception object that is built and dropped: [TypeError(...)] as a
    statement of its own, with no [raise] (lines 58, 61, 332 and 570). *)
Definition unraised (e : PyErr) : unit := tt.

Fixpoint mapM {A B : Type} (f : A -> Res B) (xs : list A) : Res (list B) :=
  match xs with
  | [] => Ok []
  | x :: xs' => y <- f x ;; ys <- mapM f xs' ;; Ok (y :: ys)
  end.

(** A dict comprehension [{key: f(d[key]) for key in d}]. *)
Fixpoint map_valuesM (f : PyObj -> Res PyObj) (d : Dict) : Res Dict :=
  match d with
  | [] => Ok []
  | (k, v) :: d' => v' <- f v ;; r <- map_valuesM f d' ;; Ok ((k, v') :: r)
  end.

(* ------------------------------------------------------------------------- *)
(** ** Dicts *)

Fixpoint dict_get (k : string) (d : Dict) : option PyObj :=
  match d with
  | [] => None
  | (k', v) :: d' => if String.eqb k k' then Some v else dict_get k d'
  end.

(** [d[k]] *)
Definition dict_getitem (d : Dict) (k : string) : Res PyObj :=
  match dict_get k d with
  | Some v => Ok v
  | None => Raise KeyError
  end.

(** [d[k] = v] *)
Fixpoint dict_setitem (d : Dict) (k : string) (v : PyObj) : Dict :=
  match d with
  | [] => [(k, v)]
  | (k', v') :: d' =>
      if String.eqb k k' then (k', v) :: d' else (k', v') :: dict_setitem d' k v
  end.

(** [d.update(new)] *)
Definition dict_update (d new : Dict) : Dict :=
  fold_left (fun acc kv => dict_setitem acc (fst kv) (snd kv)) new d.

(** [del d[k]] for a key that is present. *)
Fixpoint dict_del (d : Dict) (k : string) : Dict :=
  match d with
  | [] => []
  | (k', v) :: d' => if String.eqb k k' then d' else (k', v) :: dict_del d' k
  end.

Definition dict_keys (d : Dict) : list string := map fst d.

Definition mem (k : string) (ks : list string) : bool :=
  existsb (String.eqb k) ks.

(** [a.keys() == b.keys()]: key views compare as sets. *)
Definition keys_eq (a b : list string) : bool :=
  forallb (fun k => mem k b) a && forallb (fun k => mem k a) b.

(** [x.get(k, default)] on an object: only a dict has the method. *)
Definition py_get (x : PyObj) (k : string) (default : PyObj) : Res PyObj :=
  match x with
  | PyDict d => Ok (match dict_get k d with Some v => v | None => default end)
  | _ => Raise AttributeError
  end.

(** [x[k]] on an object, for a string key. *)
Definition py_getitem (x : PyObj) (k : string) : Res PyObj :=
  match x with
  | PyDict d => dict_getitem d k
  | _ => Raise TypeError
  end.

(** [x.keys()] *)
Definition py_keys (x : PyObj) : Res (list string) :=
  match x with
  | PyDict d => Ok (dict_keys d)
  | _ => Raise AttributeError
  end.

(** [list(x)] and [for item in x]: the elements of a collection, the keys of a
    dict, the characters of a string; anything else is not iterable. *)
Definition py_iter (x : PyObj) : Res (list PyObj) :=
  match x with
  | PyList xs | PyTuple xs | PySet xs | PyFrozenset xs => Ok xs
  | PyDict d => Ok (map (fun kv => PyStr (fst kv)) d)
  | PyStr s => Ok (map (fun a => PyStr (String a EmptyString)) (list_ascii_of_string s))
  | _ => Raise TypeError
  end.

(* ------------------------------------------------------------------------- *)
(** ** TypeRegistry: the two tables *)

Record Registry : Type := mkRegistry {
  _types_by_name : list (string * WBClass);
  _types_by_class : list (PyClass * WBClass)
}.

Fixpoint name_update (t : list (string * WBClass)) (k : string) (v : WBClass)
  : list (string * WBClass) :=
  match t with
  | [] => [(k, v)]
  | (k', v') :: t' =>
      if String.eqb k k' then (k', v) :: t' else (k', v') :: name_update t' k v
  end.

Fixpoint class_update (t : list (PyClass * WBClass)) (k : PyClass) (v : WBClass)
  : list (PyClass * WBClass) :=
  match t with
  | [] => [(k, v)]
  | (k', v') :: t' =>
      if PyClass_eqb k k' then (k', v) :: t' else (k', v') :: class_update t' k v
  end.

(** [TypeRegistry.add] (lines 34-40) *)
Definition TypeRegistry_add (r : Registry) (wb_type : WBClass) : Registry :=
  {| _types_by_name := name_update (_types_by_name r) (name wb_type) wb_type;
     _types_by_class :=
       fold_left (fun t _type => class_update t _type wb_type)
                 (types wb_type) (_types_by_class r) |}.

(** The registry after the module has been loaded (lines 605-621). *)
Definition registry : Registry :=
  fold_left TypeRegistry_add
    [ NeverType; AnyType; UnknownType;
      NoneType; StringType; NumberType; BooleanType; ListType; DictType;
      UnionType; ObjectType; ConstType ]
    (mkRegistry [] []).

Definition types_by_name : list (string * WBClass) := _types_by_name registry.
Definition types_by_class : list (PyClass * WBClass) := _types_by_class registry.

Fixpoint name_get (k : string) (t : list (string * WBClass)) : option WBClass :=
  match t with
  | [] => None
  | (k', v) :: t' => if String.eqb k k' then Some v else name_get k t'
  end.

Fixpoint class_get (k : PyClass) (t : list (PyClass * WBClass)) : option WBClass :=
  match t with
  | [] => None
  | (k', v) :: t' => if PyClass_eqb k k' then Some v else class_get k t'
  end.

(** Whether an object can be a dict key or a set member.  A descriptor cannot:
    [Type] defines [__eq__] and no [__hash__]. *)
Fixpoint hashable (x : PyObj) : bool :=
  match x with
  | PyList _ | PySet _ | PyDict _ | PyWB _ _ => false
  | PyTuple xs => forallb hashable xs
  | _ => true
  end.

(** An object used as an index of a sequence: an integer, or a boolean, whose
    class is a subclass of [int]. *)
Definition index_val (key : PyObj) : option Z :=
  match key with
  | PyInt z => Some z
  | PyBool b => Some (if b then 1 else 0)%Z
  | _ => None
  end.

(** [xs[key]] on the elements of a list, a tuple or a string: an index below
    zero counts from the end, an index out of range raises [IndexError], and
    a key that is no integer raises [TypeError]. *)
Definition seq_getitem (xs : list PyObj) (key : PyObj) : Res PyObj :=
  match index_val key with
  | None => Raise TypeError
  | Some z =>
      let len := Z.of_nat (length xs) in
      let i := if Z.ltb z 0 then (z + len)%Z else z in
      if Z.leb 0 i && Z.ltb i len
      then match nth_error xs (Z.to_nat i) with
           | Some v => Ok v
           | None => Raise IndexError
           end
      else Raise IndexError
  end.

(** [x[key]] for a key that is any object.  The keys of a dict of the model
    are strings, so another hashable key is a missing key. *)
Definition py_subscript (x key : PyObj) : Res PyObj :=
  match x with
  | PyDict d =>
      match key with
      | PyStr k => dict_getitem d k
      | _ => if hashable key then Raise KeyError else Raise TypeError
      end
  | PyList xs | PyTuple xs => seq_getitem xs key
  | PyStr s => seq_getitem (map (fun a => PyStr (String a EmptyString))
                                (list_ascii_of_string s)) key
  | _ => Raise TypeError
  end.

(* ------------------------------------------------------------------------- *)
(** ** Entry points resolved at run time *)

(** The functions and methods of the module that call one another, directly
    or through an object taken out of a [params] dict.  A body below reaches
    them through this table; [interp] further down ties the knot. *)
Record Interp : Type := mkInterp {
  i_type_of : PyObj -> Res PyObj;                      (* TypeRegistry.type_of *)
  i_type_from_dict : PyObj -> Res PyObj;               (* TypeRegistry.type_from_dict *)
  i_type_from_dtype : PyObj -> Res PyObj;              (* TypeRegistry.type_from_dtype *)
  i_params_obj_to_json_obj : PyObj -> Res PyObj;       (* _params_obj_to_json_obj *)
  i_json_obj_to_params_obj : PyObj -> Res PyObj;       (* _json_obj_to_params_obj *)
  i_flatten_union_types : PyObj -> Res (list PyObj);   (* _flatten_union_types *)
  i_assign : PyObj -> PyObj -> Res PyObj;              (* x.assign(py_obj) *)
  i_assign_type : PyObj -> PyObj -> Res PyObj;         (* x.assign_type(wb_type) *)
  i_to_json : PyObj -> Res PyObj;                      (* x.to_json() *)
  i_eq : PyObj -> PyObj -> Res bool;                   (* x == y *)
  i_repr : PyObj -> Res string                         (* repr(x) *)
}.

(** The arguments of a call: the positional ones and the keyword ones. *)
Record Args : Type := mkArgs { positional : list PyObj; keywords : Dict }.

Definition no_args : Args := mkArgs [] [].
Definition pos (xs : list PyObj) : Args := mkArgs xs [].

(** Binding of the arguments of a call to the parameters after [self], each
    with its default if it has one; Python raises [TypeError] for a missing
    argument, one given twice, or one the function does not have. *)
Fixpoint bind_args (sig : list (string * option PyObj)) (ps : list PyObj) (kw : Dict)
  : Res (list PyObj) :=
  match sig with
  | [] => match ps, kw with
          | [], [] => Ok []
          | _, _ => Raise TypeError
          end
  | (p, default) :: sig' =>
      match ps with
      | v :: ps' =>
          match dict_get p kw with
          | Some _ => Raise TypeError
          | None => vs <- bind_args sig' ps' kw ;; Ok (v :: vs)
          end
      | [] =>
          match dict_get p kw with
          | Some v => vs <- bind_args sig' [] (dict_del kw p) ;; Ok (v :: vs)
          | None =>
              match default with
              | Some v => vs <- bind_args sig' [] kw ;; Ok (v :: vs)
              | None => Raise TypeError
              end
          end
      end
  end.

(** [Type.params] (lines 167-171): the property stores an empty dict in
    [_params] when the attribute is unset or [None], and returns a new empty
    dict.  The pair is the dict handed to the caller and [self] after the
    access. *)
Definition params (self : WBType) : Dict * WBType :=
  let self' := match _params self with
               | None => mkType (__class__ self) (Some [])
               | Some _ => self
               end in
  ([], self').

(** The object [x] after [repr(x)] or [str(x)] has returned: [Type.__repr__]
    (lines 238-239) reads [self.params], which stores an empty dict in an
    unset [_params], and the rendering of a container renders what it
    holds. *)
Fixpoint after_repr (x : PyObj) : PyObj :=
  match x with
  | PyWB c p => obj_of (snd (params (mkType c p)))
  | PyList xs => PyList (map after_repr xs)
  | PyTuple xs => PyTuple (map after_repr xs)
  | PySet xs => PySet (map after_repr xs)
  | PyFrozenset xs => PyFrozenset (map after_repr xs)
  | PyDict d => PyDict (map (fun kv => (fst kv, after_repr (snd kv))) d)
  | _ => x
  end.

(** [x.params] on an object. *)
Definition py_params (x : PyObj) : Res Dict :=
  match x with
  | PyWB c p => Ok (fst (params (mkType c p)))
  | _ => Raise AttributeError
  end.

(** The object [cls.__new__] hands to [__init__]. *)
Definition new (cls : WBClass) : WBType := mkType cls None.

(** [Type.__init__] (lines 164-165) takes any arguments and does nothing. *)
Definition Type___init__ (self : WBType) (args : Args) : Res WBType := Ok self.

(** [cls()] for a class that inherits [Type.__init__]: [NeverType()],
    [UnknownType()], [NoneType()]. *)
Definition instantiate (cls : WBClass) : Res PyObj :=
  self <- Type___init__ (new cls) no_args ;; Ok (obj_of self).

(** The value of a number, as [m * 2^e]; [True] is 1 and [False] is 0. *)
Definition num_val (x : PyObj) : option (Z * Z) :=
  match x with
  | PyInt z => Some (z, 0%Z)
  | PyBool b => Some (if b then 1%Z else 0%Z, 0%Z)
  | PyFloat m e => Some (m, e)
  | _ => None
  end.

Definition num_eqb (a b : Z * Z) : bool :=
  let e := Z.min (snd a) (snd b) in
  Z.eqb (fst a * 2 ^ (snd a - e)) (fst b * 2 ^ (snd b - e)).

Fixpoint list_eqM (eq : PyObj -> PyObj -> Res bool) (xs ys : list PyObj) : Res bool :=
  match xs, ys with
  | [], [] => Ok true
  | x :: xs', y :: ys' =>
      b <- eq x y ;; if b then list_eqM eq xs' ys' else Ok false
  | _, _ => Ok false
  end.

Fixpoint memM (eq : PyObj -> PyObj -> Res bool) (x : PyObj) (ys : list PyObj) : Res bool :=
  match ys with
  | [] => Ok false
  | y :: ys' => b <- eq x y ;; if b then Ok true else memM eq x ys'
  end.

Fixpoint subsetM (eq : PyObj -> PyObj -> Res bool) (xs ys : list PyObj) : Res bool :=
  match xs with
  | [] => Ok true
  | x :: xs' => b <- memM eq x ys ;; if b then subsetM eq xs' ys else Ok false
  end.

(** Every key of [a] is a key of [b], with an equal value. *)
Fixpoint dict_leM (eq : PyObj -> PyObj -> Res bool) (a b : Dict) : Res bool :=
  match a with
  | [] => Ok true
  | (k, v) :: a' =>
      match dict_get k b with
      | None => Ok false
      | Some v' => c <- eq v v' ;; if c then dict_leM eq a' b else Ok false
      end
  end.

(** [set(xs)]: the members must be hashable; equal ones are kept once. *)
Fixpoint set_addM (eq : PyObj -> PyObj -> Res bool) (acc xs : list PyObj)
  : Res (list PyObj) :=
  match xs with
  | [] => Ok acc
  | x :: xs' =>
      if hashable x
      then b <- memM eq x acc ;; set_addM eq (if b then acc else acc ++ [x]) xs'
      else Raise TypeError
  end.

Fixpoint join (sep : string) (xs : list string) : string :=
  match xs with
  | [] => EmptyString
  | [x] => x
  | x :: xs' => x ++ sep ++ join sep xs'
  end.

Definition int_str (z : Z) : string := NilZero.string_of_int (Z.to_int z).

(** [resolved_types.sort(key=str)]: the sort is stable and the keys are
    compared as strings, code point by code point. *)
Fixpoint insert_by_key (k : string) (v : PyObj) (l : list (string * PyObj))
  : list (string * PyObj) :=
  match l with
  | [] => [(k, v)]
  | (k', v') :: l' =>
      if String.leb k k' then (k, v) :: l else (k', v') :: insert_by_key k v l'
  end.

Definition sort_by_key (keyed : list (string * PyObj)) : list PyObj :=
  map snd (fold_right (fun kv acc => insert_by_key (fst kv) (snd kv) acc) [] keyed).

Fixpoint foldM {S A : Type} (f : S -> A -> Res S) (xs : list A) (s : S) : Res S :=
  match xs with
  | [] => Ok s
  | x :: xs' => s' <- f s x ;; foldM f xs' s'
  end.

Definition is_dict (x : PyObj) : bool :=
  match x with PyDict _ => true | _ => false end.

Definition is_set (x : PyObj) : bool :=
  match x with PySet _ => true | _ => false end.

Definition is_list (x : PyObj) : bool :=
  match x with PyList _ => true | _ => false end.

(** [isinstance(x, type)]: a class object. *)
Definition is_class (x : PyObj) : bool :=
  match x with PyClassObj _ => true | _ => false end.

(** [ConvertableToType] (line 10) is the object [typing.Union[...]]: not a
    class, not a descriptor, neither a list nor a dict. *)
Definition ConvertableToType : PyObj := PyInstance "typing.Union" 0.

(* ------------------------------------------------------------------------- *)
(** ** The functions and methods of the module *)

Section Methods.

(** The entry points as they stand one unfolding below. *)
Variable py : Interp.

(** *** Equality and rendering *)

(** [Type.__eq__] (lines 241-246).  An object that is [other] itself has the
    serialized form of [other], so the identity test decides nothing that the
    comparison of the serialized forms does not. *)
Definition Type___eq__ (self : WBType) (other : PyObj) : Res bool :=
  if isinstance_Type other
  then a <- i_to_json py self ;; b <- i_to_json py other ;; i_eq py a b
  else Ok false.

(** Python's [x == y] on the objects of the model: numbers by value, strings,
    lists, tuples and dicts by content, sets by membership, descriptors by
    [__eq__], class objects and other instances by identity. *)
Definition py_eq (x y : PyObj) : Res bool :=
  match num_val x, num_val y with
  | Some a, Some b => Ok (num_eqb a b)
  | _, _ =>
      match x, y with
      | PyNone, PyNone => Ok true
      | PyStr s, PyStr t => Ok (String.eqb s t)
      | PyList xs, PyList ys => list_eqM (i_eq py) xs ys
      | PyTuple xs, PyTuple ys => list_eqM (i_eq py) xs ys
      | PySet xs, PySet ys | PySet xs, PyFrozenset ys
      | PyFrozenset xs, PySet ys | PyFrozenset xs, PyFrozenset ys =>
          if Nat.eqb (length xs) (length ys) then subsetM (i_eq py) xs ys else Ok false
      | PyDict a, PyDict b =>
          if Nat.eqb (length a) (length b) then dict_leM (i_eq py) a b else Ok false
      | PyClassObj c, PyClassObj c' => Ok (PyClass_eqb c c')
      | PyWB c p, _ => Type___eq__ (mkType c p) y
      | _, PyWB c p => Type___eq__ (mkType c p) x
      | PyInstance n i, PyInstance n' i' => Ok (String.eqb n n' && Nat.eqb i i')
      | _, _ => Ok false
      end
  end.

(** [Type.__repr__] (lines 238-239) *)
Definition Type___repr__ (self : WBType) : Res string :=
  p <- i_repr py (PyDict (fst (params self))) ;;
  Ok ("<WBType:" ++ name (__class__ self) ++ " | " ++ p ++ ">").

(** [repr(x)].  Exact on [None], booleans, integers, containers and
    descriptors; a string is put between quotes without escapes, and a float,
    a class object and an instance of an unmodelled class have a schematic
    rendering. *)
Definition py_repr (x : PyObj) : Res string :=
  match x with
  | PyNone => Ok "None"
  | PyStr s => Ok ("'" ++ s ++ "'")
  | PyInt z => Ok (int_str z)
  | PyFloat m e => Ok (int_str m ++ "*2.0**" ++ int_str e)
  | PyBool b => Ok (if b then "True" else "False")
  | PyList xs => ss <- mapM (i_repr py) xs ;; Ok ("[" ++ join ", " ss ++ "]")
  | PyTuple xs =>
      ss <- mapM (i_repr py) xs ;;
      Ok (match ss with
          | [s] => "(" ++ s ++ ",)"
          | _ => "(" ++ join ", " ss ++ ")"
          end)
  | PySet xs =>
      ss <- mapM (i_repr py) xs ;;
      Ok (match ss with [] => "set()" | _ => "{" ++ join ", " ss ++ "}" end)
  | PyFrozenset xs =>
      ss <- mapM (i_repr py) xs ;;
      Ok (match ss with
          | [] => "frozenset()"
          | _ => "frozenset({" ++ join ", " ss ++ "})"
          end)
  | PyDict d =>
      ss <- mapM (fun kv => v <- i_repr py (snd kv) ;; Ok ("'" ++ fst kv ++ "': " ++ v)) d ;;
      Ok ("{" ++ join ", " ss ++ "}")
  | PyClassObj c => Ok ("<class '" ++ __name__ c ++ "'>")
  | PyWB c p => Type___repr__ (mkType c p)
  | PyInstance n i => Ok ("<" ++ n ++ " object at " ++ int_str (Z.of_nat i) ++ ">")
  end.

(** [str(x)], the sort key of line 407. *)
Definition py_str (x : PyObj) : Res string :=
  match x with
  | PyStr s => Ok s
  | _ => i_repr py x
  end.

(** *** Constructors *)

(** [ObjectType.__init__] (lines 315-316) *)
Definition ObjectType___init__ (self : WBType) (class_name : PyObj) : Res WBType :=
  let (d, self) := params self in
  let _ := dict_update d [("class_name", class_name)] in
  Ok self.

(** [ConstType.__init__] (lines 330-342) *)
Definition ConstType___init__ (self : WBType) (val is_set_ : PyObj) : Res WBType :=
  let _ :=
    if negb (existsb (PyClass_eqb (py_class val))
               [cls_str; cls_int; cls_float; cls_bool; cls_set; cls_list; cls_NoneType])
    then unraised TypeError else tt in
  r <- (if truthy is_set_ || is_set val
        then _ <- py_assert (is_set val || is_list val) ;;
             xs <- py_iter val ;;
             s <- set_addM (i_eq py) [] xs ;;
             Ok (PySet s, PyBool true)
        else Ok (val, is_set_)) ;;
  let (d, self) := params self in
  let _ := dict_update d [("val", fst r); ("is_set", snd r)] in
  Ok self.

(** The local [wb_types] of [UnionType.__init__] (lines 421-425). *)
Definition UnionType_wb_types (allowed_types : PyObj) : Res (list PyObj) :=
  _ <- py_assert (is_None allowed_types || PyClass_eqb (py_class allowed_types) cls_list) ;;
  if is_None allowed_types then Ok []
  else dts <- py_iter allowed_types ;; mapM (i_type_from_dtype py) dts.

(** [UnionType.__init__] (lines 418-427) *)
Definition UnionType___init__ (self : WBType) (allowed_types : PyObj) : Res WBType :=
  wb_types <- UnionType_wb_types allowed_types ;;
  let (d, self) := params self in
  let _ := dict_update d [("allowed_types", PyList wb_types)] in
  Ok self.

(** [ListType.__init__] (lines 474-480) *)
Definition ListType___init__ (self : WBType) (element_type : PyObj) : Res WBType :=
  wb_type <- (if is_None element_type then instantiate UnknownType
              else i_type_from_dtype py element_type) ;;
  let (d, self) := params self in
  let _ := dict_update d [("element_type", wb_type)] in
  Ok self.

(** The dict comprehension of lines 561-563 over the keys that iterating a
    [type_map] which is no dict yields: a key is used to subscript [type_map],
    the entry goes through [type_from_dtype], and the pair is stored, which
    needs a hashable key.  A dict of the model has string keys, so an entry
    under another key is not kept in [acc]; no such comprehension returns
    ([DictType_comprehension_returns_on_no_key] below), so that no dict that
    is returned misses an entry. *)
Fixpoint DictType_comprehension (type_map : PyObj) (keys : list PyObj) (acc : Dict)
  : Res Dict :=
  match keys with
  | [] => Ok acc
  | key :: rest =>
      v <- py_subscript type_map key ;;
      t <- i_type_from_dtype py v ;;
      if hashable key
      then DictType_comprehension type_map rest
             (match key with PyStr k => dict_setitem acc k t | _ => acc end)
      else Raise TypeError
  end.

(** [DictType.__init__] (lines 554-565).  On a dict the comprehension maps
    [type_from_dtype] over the values; on another object it iterates the
    object and subscripts it, which returns for an empty list, tuple, set,
    frozenset or string only. *)
Definition DictType___init__ (self : WBType) (type_map : PyObj) : Res WBType :=
  let type_map := if is_None type_map then PyDict [] else type_map in
  m <- match type_map with
       | PyDict d => map_valuesM (i_type_from_dtype py) d
       | _ => keys <- py_iter type_map ;; DictType_comprehension type_map keys []
       end ;;
  let (d, self) := params self in
  let _ := dict_update d [("type_map", PyDict m)] in
  Ok self.

(** [cls(...)]: a new object, initialised by the [__init__] of its class. *)
Definition call (cls : WBClass) (args : Args) : Res PyObj :=
  self <-
    match cls with
    | ObjectType =>
        a <- bind_args [("class_name", None)] (positional args) (keywords args) ;;
        match a with
        | [class_name] => ObjectType___init__ (new cls) class_name
        | _ => Raise TypeError
        end
    | ConstType =>
        a <- bind_args [("val", Some PyNone); ("is_set", Some (PyBool false))]
                       (positional args) (keywords args) ;;
        match a with
        | [val; is_set_] => ConstType___init__ (new cls) val is_set_
        | _ => Raise TypeError
        end
    | UnionType =>
        a <- bind_args [("allowed_types", Some PyNone)] (positional args) (keywords args) ;;
        match a with
        | [allowed_types] => UnionType___init__ (new cls) allowed_types
        | _ => Raise TypeError
        end
    | ListType =>
        a <- bind_args [("element_type", Some PyNone)] (positional args) (keywords args) ;;
        match a with
        | [element_type] => ListType___init__ (new cls) element_type
        | _ => Raise TypeError
        end
    | DictType =>
        a <- bind_args [("type_map", Some PyNone)] (positional args) (keywords args) ;;
        match a with
        | [type_map] => DictType___init__ (new cls) type_map
        | _ => Raise TypeError
        end
    | _ => Type___init__ (new cls) args
    end ;;
  Ok (obj_of self).

(** *** Construction from a value *)

(** [Type.from_obj] (lines 234-236) *)
Definition Type_from_obj (cls : WBClass) (py_obj : PyObj) : Res PyObj :=
  call cls no_args.

(** [ObjectType.from_obj] (lines 318-320) *)
Definition ObjectType_from_obj (cls : WBClass) (py_obj : PyObj) : Res PyObj :=
  call cls (pos [PyStr (__name__ (py_class py_obj))]).

(** [ConstType.from_obj] (lines 344-346) *)
Definition ConstType_from_obj (cls : WBClass) (py_obj : PyObj) : Res PyObj :=
  call cls (pos [py_obj]).

(** [OptionalType] (lines 454-464): the argument of [type_from_dtype] is
    [ConvertableToType], not [dtype]. *)
Definition OptionalType (dtype : PyObj) : Res PyObj :=
  a <- i_type_from_dtype py ConvertableToType ;;
  b <- instantiate NoneType ;;
  call UnionType (pos [PyList [a; b]]).

(** The loop of [ListType.from_obj] (lines 499-508). *)
Fixpoint ListType_from_obj_loop (elm_type : PyObj) (py_list : list PyObj) : Res PyObj :=
  match py_list with
  | [] => Ok elm_type
  | item :: rest =>
      _elm_type <- i_assign py elm_type item ;;
      if isinstance _elm_type NeverType then Raise TypeError
      else ListType_from_obj_loop _elm_type rest
  end.

(** [ListType.from_obj] (lines 482-510) *)
Definition ListType_from_obj (cls : WBClass) (py_obj : PyObj) : Res PyObj :=
  if is_None py_obj || negb (is_list_like py_obj) then Raise TypeError
  else
    py_list <- py_iter py_obj ;;
    elm_type <- (if negb (existsb is_None py_list) then instantiate UnknownType
                 else u <- instantiate UnknownType ;; OptionalType u) ;;
    elm_type <- ListType_from_obj_loop elm_type py_list ;;
    call cls (pos [elm_type]).

(** [DictType.from_obj] (lines 567-573) *)
Definition DictType_from_obj (cls : WBClass) (py_obj : PyObj) : Res PyObj :=
  let _ := if negb (is_dict py_obj) then unraised TypeError else tt in
  _ <- py_assert (is_dict py_obj) ;;
  match py_obj with
  | PyDict d => m <- map_valuesM (i_type_of py) d ;; call cls (pos [PyDict m])
  | _ => Raise AssertionError
  end.

(** [cls.from_obj(py_obj)], by the class that defines the method. *)
Definition from_obj (cls : WBClass) (py_obj : PyObj) : Res PyObj :=
  match cls with
  | ObjectType => ObjectType_from_obj cls py_obj
  | ConstType => ConstType_from_obj cls py_obj
  | ListType => ListType_from_obj cls py_obj
  | DictType => DictType_from_obj cls py_obj
  | _ => Type_from_obj cls py_obj
  end.

(** *** TypeRegistry *)

(** [TypeRegistry.type_of] (lines 42-50); a class object is true. *)
Definition TypeRegistry_type_of (py_obj : PyObj) : Res PyObj :=
  match class_get (py_class py_obj) types_by_class with
  | Some class_handler => from_obj class_handler py_obj
  | None => ObjectType_from_obj ObjectType py_obj
  end.

(** [Type.from_json] (lines 218-232); no subclass overrides it.  The artifact
    is handed on and never looked at, and is left out. *)
Definition Type_from_json (cls : WBClass) (json_dict : PyObj) : Res PyObj :=
  p <- py_get json_dict "params" (PyDict []) ;;
  kw <- i_json_obj_to_params_obj py p ;;
  match kw with
  | PyDict d => call cls (mkArgs [] d)
  | _ => Raise TypeError
  end.

(** [TypeRegistry.types_by_name().get(k)]: the key must be hashable. *)
Definition types_by_name_get (k : PyObj) : Res (option WBClass) :=
  if hashable k
  then Ok (match k with PyStr s => name_get s types_by_name | _ => None end)
  else Raise TypeError.

(** [TypeRegistry.type_from_dict] (lines 52-62): both [TypeError]s are built
    and not raised; [_type.from_json] on [None] is an [AttributeError]. *)
Definition TypeRegistry_type_from_dict (json_dict : PyObj) : Res PyObj :=
  wb_type <- py_get json_dict "wb_type" PyNone ;;
  let _ := if is_None wb_type then unraised TypeError else tt in
  _type <- types_by_name_get wb_type ;;
  let _ := match _type with None => unraised TypeError | Some _ => tt end in
  match _type with
  | Some cls => Type_from_json cls json_dict
  | None => Raise AttributeError
  end.

(** [issubclass(dtype, Type)]: a [TypeError] unless [dtype] is a class. *)
Definition issubclass_Type (dtype : PyObj) : Res bool :=
  match dtype with
  | PyClassObj (cls_wb _) => Ok true
  | PyClassObj _ => Ok false
  | _ => Raise TypeError
  end.

(** [f(...)] for an object [f]: of the objects of the model only a descriptor
    class can be called. *)
Definition call_obj (f : PyObj) (args : Args) : Res PyObj :=
  match f with
  | PyClassObj (cls_wb c) => call c args
  | _ => Raise TypeError
  end.

(** [TypeRegistry.types_by_class().get(k)] *)
Definition types_by_class_get (k : PyObj) : option WBClass :=
  match k with
  | PyClassObj c => class_get c types_by_class
  | _ => None
  end.

(** [TypeRegistry.type_from_dtype] (lines 64-107) *)
Definition TypeRegistry_type_from_dtype (dtype : PyObj) : Res PyObj :=
  if isinstance_Type dtype then Ok dtype
  else
    sub <- issubclass_Type dtype ;;
    if sub then call_obj dtype no_args
    else if is_class dtype then
      match types_by_class_get dtype with
      | Some handler => call handler no_args
      | None => ObjectType_from_obj ObjectType dtype
      end
    else
      match dtype with
      | PyList dts =>
          match dts with
          | [] => call ListType no_args
          | [dt] => t <- i_type_from_dtype py dt ;; call ListType (pos [t])
          | _ => ts <- mapM (i_type_from_dtype py) dts ;; call UnionType (pos [PyList ts])
          end
      | PyDict d =>
          m <- map_valuesM (i_type_from_dtype py) d ;; call DictType (pos [PyDict m])
      | _ => call ConstType (pos [dtype])
      end.

(** *** Serialization *)

(** [_params_obj_to_json_obj] (lines 110-124) *)
Definition _params_obj_to_json_obj (params_obj : PyObj) : Res PyObj :=
  match params_obj with
  | PyDict d => m <- map_valuesM (i_params_obj_to_json_obj py) d ;; Ok (PyDict m)
  | PyList xs | PySet xs | PyTuple xs | PyFrozenset xs =>
      ys <- mapM (i_params_obj_to_json_obj py) xs ;; Ok (PyList ys)
  | PyWB _ _ => i_to_json py params_obj
  | _ => Ok params_obj
  end.

(** [_json_obj_to_params_obj] (lines 127-142) *)
Definition _json_obj_to_params_obj (json_obj : PyObj) : Res PyObj :=
  match json_obj with
  | PyDict d =>
      if mem "wb_type" (dict_keys d) then i_type_from_dict py json_obj
      else m <- map_valuesM (i_json_obj_to_params_obj py) d ;; Ok (PyDict m)
  | PyList xs => ys <- mapM (i_json_obj_to_params_obj py) xs ;; Ok (PyList ys)
  | _ => Ok json_obj
  end.

(** [Type.to_json] (lines 195-216); no subclass overrides it.  The artifact
    is handed on to [_params_obj_to_json_obj] and never looked at, and is left
    out. *)
Definition Type_to_json (self : WBType) : Res PyObj :=
  p <- i_params_obj_to_json_obj py (PyDict (fst (params self))) ;;
  let res := [("wb_type", PyStr (name (__class__ self))); ("params", p)] in
  p' <- dict_getitem res "params" ;;
  empty <- (if is_None p' then Ok true else i_eq py p' (PyDict [])) ;;
  Ok (PyDict (if empty then dict_del res "params" else res)).

(** *** Assignment *)

(** [Type.assign] (lines 173-186) *)
Definition Type_assign (self : WBType) (py_obj : PyObj) : Res PyObj :=
  wb_type <- i_type_of py py_obj ;;
  i_assign_type py self wb_type.

(** [Type.assign_type] (lines 188-193) *)
Definition Type_assign_type (self : WBType) (wb_type : PyObj) : Res PyObj :=
  if isinstance wb_type (__class__ self)
  then
    p' <- py_params wb_type ;;
    same <- i_eq py (PyDict (fst (params self))) (PyDict p') ;;
    if same then Ok (obj_of (snd (params self))) else instantiate NeverType
  else instantiate NeverType.

(** [NeverType.assign_type] (lines 257-258) *)
Definition NeverType_assign_type (self : WBType) (wb_type : PyObj) : Res PyObj :=
  Ok (obj_of self).

(** [AnyType.assign_type] (lines 269-274) *)
Definition AnyType_assign_type (self : WBType) (wb_type : PyObj) : Res PyObj :=
  if negb (isinstance wb_type NoneType || isinstance wb_type NeverType)
  then Ok (obj_of self)
  else instantiate NeverType.

(** [UnknownType.assign_type] (lines 285-286) *)
Definition UnknownType_assign_type (self : WBType) (wb_type : PyObj) : Res PyObj :=
  if negb (isinstance wb_type NoneType) then Ok wb_type else instantiate NeverType.

(** The loop of [_flatten_union_types] (lines 351-357). *)
Fixpoint _flatten_union_types_loop (wb_types : list PyObj) : Res (list PyObj) :=
  match wb_types with
  | [] => Ok []
  | allowed_type :: rest =>
      found <- (if isinstance allowed_type UnionType
                then p <- py_params allowed_type ;;
                     a <- dict_getitem p "allowed_types" ;;
                     i_flatten_union_types py a
                else Ok [allowed_type]) ;;
      final_types <- _flatten_union_types_loop rest ;;
      Ok (found ++ final_types)%list
  end.

(** [_flatten_union_types] (lines 349-358) *)
Definition _flatten_union_types (wb_types : PyObj) : Res (list PyObj) :=
  xs <- py_iter wb_types ;; _flatten_union_types_loop xs.

(** The locals of [_union_assigner] that its first loop updates. *)
Record UnionState : Type := mkUnionState {
  resolved_types : list PyObj;
  valid : bool;
  unknown_count : nat
}.

(** One round of the first loop of [_union_assigner] (lines 370-386). *)
Definition _union_assigner_step (obj_or_type : PyObj) (type_mode : bool)
    (st : UnionState) (allowed_type : PyObj) : Res UnionState :=
  if valid st
  then Ok (mkUnionState (resolved_types st ++ [allowed_type])%list true (unknown_count st))
  else if isinstance allowed_type UnknownType
  then Ok (mkUnionState (resolved_types st) false (unknown_count st + 1))
  else
    assigned_type <-
      (if type_mode
       then _ <- py_assert (isinstance_Type obj_or_type) ;;
            i_assign_type py allowed_type obj_or_type
       else i_assign py allowed_type obj_or_type) ;;
    if isinstance assigned_type NeverType
    then Ok (mkUnionState (resolved_types st ++ [allowed_type])%list false (unknown_count st))
    else Ok (mkUnionState (resolved_types st ++ [assigned_type])%list true (unknown_count st)).

(** Lines 388-401 of [_union_assigner]: [None] is [return NeverType()]. *)
Definition _union_assigner_unmatched (obj_or_type : PyObj) (type_mode : bool)
    (st : UnionState) : Res (option UnionState) :=
  if negb (valid st)
  then
    if Nat.eqb (unknown_count st) 0 then Ok None
    else
      new_type <-
        (if type_mode
         then _ <- py_assert (isinstance_Type obj_or_type) ;; Ok obj_or_type
         else u <- instantiate UnknownType ;; i_assign py u obj_or_type) ;;
      if isinstance new_type NeverType then Ok None
      else Ok (Some (mkUnionState (resolved_types st ++ [new_type])%list false
                                  (unknown_count st - 1)))
  else Ok (Some st).

(** [_union_assigner] (lines 361-408): the list of resolved branches as a
    Python list, or a [NeverType] object.  [sort(key=str)] calls [str] on
    every branch, so the branches of the result are the objects as that call
    leaves them. *)
Definition _union_assigner (allowed_types obj_or_type : PyObj) (type_mode : bool)
  : Res PyObj :=
  ats <- py_iter allowed_types ;;
  st <- foldM (_union_assigner_step obj_or_type type_mode) ats (mkUnionState [] false 0) ;;
  r <- _union_assigner_unmatched obj_or_type type_mode st ;;
  match r with
  | None => instantiate NeverType
  | Some st =>
      unknowns <- mapM (fun _ => instantiate UnknownType) (seq 0 (unknown_count st)) ;;
      flat <- i_flatten_union_types py (PyList (resolved_types st ++ unknowns)%list) ;;
      keys <- mapM py_str flat ;;
      Ok (PyList (sort_by_key (combine keys (map after_repr flat))))
  end.

(** [UnionType.assign] (lines 429-437) *)
Definition UnionType_assign (self : WBType) (py_obj : PyObj) : Res PyObj :=
  allowed_types <- dict_getitem (fst (params self)) "allowed_types" ;;
  resolved <- _union_assigner allowed_types py_obj false ;;
  if isinstance resolved NeverType then instantiate NeverType
  else call (__class__ self) (pos [resolved]).

(** The loop of [UnionType.assign_type] (lines 446-449). *)
Fixpoint UnionType_assign_type_loop (resolved : PyObj) (assignees : list PyObj)
  : Res (option PyObj) :=
  match assignees with
  | [] => Ok (Some resolved)
  | assignee :: rest =>
      resolved' <- _union_assigner resolved assignee true ;;
      if isinstance resolved' NeverType then Ok None
      else UnionType_assign_type_loop resolved' rest
  end.

(** [UnionType.assign_type] (lines 439-451) *)
Definition UnionType_assign_type (self : WBType) (wb_type : PyObj) : Res PyObj :=
  assignees <- (if isinstance wb_type UnionType
                then p <- py_params wb_type ;; dict_getitem p "allowed_types"
                else Ok (PyList [wb_type])) ;;
  resolved <- dict_getitem (fst (params self)) "allowed_types" ;;
  xs <- py_iter assignees ;;
  r <- UnionType_assign_type_loop resolved xs ;;
  match r with
  | None => instantiate NeverType
  | Some resolved => call (__class__ self) (pos [resolved])
  end.

(** [ListType.assign_type] (lines 512-520) *)
Definition ListType_assign_type (self : WBType) (wb_type : PyObj) : Res PyObj :=
  if isinstance wb_type ListType
  then
    mine <- dict_getitem (fst (params self)) "element_type" ;;
    p' <- py_params wb_type ;;
    theirs <- dict_getitem p' "element_type" ;;
    assigned_type <- i_assign_type py mine theirs ;;
    if negb (isinstance assigned_type NeverType)
    then call ListType (pos [assigned_type])
    else instantiate NeverType
  else instantiate NeverType.

(** The loop of [ListType.assign] (lines 532-535): [None] is
    [return NeverType()], otherwise the last [new_element_type]. *)
Fixpoint ListType_assign_loop (new_element_type : PyObj) (objs : list PyObj)
  : Res (option PyObj) :=
  match objs with
  | [] => Ok (Some new_element_type)
  | obj :: rest =>
      t <- i_assign py new_element_type obj ;;
      if isinstance t NeverType then Ok None else ListType_assign_loop t rest
  end.

(** [ListType.assign] (lines 522-538) *)
Definition ListType_assign (self : WBType) (py_obj : PyObj) : Res PyObj :=
  if is_list_like py_obj
  then
    new_element_type <- dict_getitem (fst (params self)) "element_type" ;;
    objs <- py_iter py_obj ;;
    r <- ListType_assign_loop new_element_type objs ;;
    match r with
    | None => instantiate NeverType
    | Some t => call ListType (pos [t])
    end
  else instantiate NeverType.

(** The loop of [DictType.assign_type] (lines 581-586). *)
Fixpoint DictType_assign_type_loop (self : WBType) (wb_type : PyObj)
    (type_map : Dict) (keys : list string) : Res (option Dict) :=
  match keys with
  | [] => Ok (Some type_map)
  | key :: rest =>
      mine <- dict_getitem (fst (params self)) "type_map" ;;
      a <- py_getitem mine key ;;
      p' <- py_params wb_type ;;
      theirs <- dict_getitem p' "type_map" ;;
      b <- py_getitem theirs key ;;
      t <- i_assign_type py a b ;;
      if isinstance t NeverType then Ok None
      else DictType_assign_type_loop self wb_type (dict_setitem type_map key t) rest
  end.

(** [DictType.assign_type] (lines 575-589) *)
Definition DictType_assign_type (self : WBType) (wb_type : PyObj) : Res PyObj :=
  if isinstance wb_type DictType
  then
    mine <- dict_getitem (fst (params self)) "type_map" ;;
    ks <- py_keys mine ;;
    p' <- py_params wb_type ;;
    theirs <- dict_getitem p' "type_map" ;;
    ks' <- py_keys theirs ;;
    if keys_eq ks ks'
    then
      again <- dict_getitem (fst (params self)) "type_map" ;;
      keys <- py_keys again ;;
      r <- DictType_assign_type_loop self wb_type [] keys ;;
      match r with
      | None => instantiate NeverType
      | Some type_map => call DictType (pos [PyDict type_map])
      end
    else instantiate NeverType
  else instantiate NeverType.

(** The loop of [DictType.assign] (lines 596-599). *)
Fixpoint DictType_assign_loop (self : WBType) (py_obj : PyObj)
    (type_map : Dict) (keys : list string) : Res (option Dict) :=
  match keys with
  | [] => Ok (Some type_map)
  | key :: rest =>
      mine <- dict_getitem (fst (params self)) "type_map" ;;
      a <- py_getitem mine key ;;
      v <- py_getitem py_obj key ;;
      t <- i_assign py a v ;;
      if isinstance t NeverType then Ok None
      else DictType_assign_loop self py_obj (dict_setitem type_map key t) rest
  end.

(** [DictType.assign] (lines 591-602) *)
Definition DictType_assign (self : WBType) (py_obj : PyObj) : Res PyObj :=
  if is_dict py_obj
  then
    mine <- dict_getitem (fst (params self)) "type_map" ;;
    ks <- py_keys mine ;;
    ks' <- py_keys py_obj ;;
    if keys_eq ks ks'
    then
      again <- dict_getitem (fst (params self)) "type_map" ;;
      keys <- py_keys again ;;
      r <- DictType_assign_loop self py_obj [] keys ;;
      match r with
      | None => instantiate NeverType
      | Some type_map => call DictType (pos [PyDict type_map])
      end
    else instantiate NeverType
  else instantiate NeverType.

(** *** Method lookup *)

(** [x.assign(py_obj)] *)
Definition assign (x py_obj : PyObj) : Res PyObj :=
  match x with
  | PyWB c p =>
      let self := mkType c p in
      match c with
      | UnionType => UnionType_assign self py_obj
      | ListType => ListType_assign self py_obj
      | DictType => DictType_assign self py_obj
      | _ => Type_assign self py_obj
      end
  | _ => Raise AttributeError
  end.

(** [x.assign_type(wb_type)] *)
Definition assign_type (x wb_type : PyObj) : Res PyObj :=
  match x with
  | PyWB c p =>
      let self := mkType c p in
      match c with
      | NeverType => NeverType_assign_type self wb_type
      | AnyType => AnyType_assign_type self wb_type
      | UnknownType => UnknownType_assign_type self wb_type
      | UnionType => UnionType_assign_type self wb_type
      | ListType => ListType_assign_type self wb_type
      | DictType => DictType_assign_type self wb_type
      | _ => Type_assign_type self wb_type
      end
  | _ => Raise AttributeError
  end.

(** [x.to_json()] *)
Definition to_json (x : PyObj) : Res PyObj :=
  match x with
  | PyWB c p => Type_to_json (mkType c p)
  | _ => Raise AttributeError
  end.

(** One unfolding of the entry points. *)
Definition step : Interp :=
  {| i_type_of := TypeRegistry_type_of;
     i_type_from_dict := TypeRegistry_type_from_dict;
     i_type_from_dtype := TypeRegistry_type_from_dtype;
     i_params_obj_to_json_obj := _params_obj_to_json_obj;
     i_json_obj_to_params_obj := _json_obj_to_params_obj;
     i_flatten_union_types := _flatten_union_types;
     i_assign := assign;
     i_assign_type := assign_type;
     i_to_json := to_json;
     i_eq := py_eq;
     i_repr := py_repr |}.

End Methods.

(** No unfolding left. *)
Definition bottom : Interp :=
  {| i_type_of := fun _ => OutOfFuel;
     i_type_from_dict := fun _ => OutOfFuel;
     i_type_from_dtype := fun _ => OutOfFuel;
     i_params_obj_to_json_obj := fun _ => OutOfFuel;
     i_json_obj_to_params_obj := fun _ => OutOfFuel;
     i_flatten_union_types := fun _ => OutOfFuel;
     i_assign := fun _ _ => OutOfFuel;
     i_assign_type := fun _ _ => OutOfFuel;
     i_to_json := fun _ => OutOfFuel;
     i_eq := fun _ _ => OutOfFuel;
     i_repr := fun _ => OutOfFuel |}.

(** The entry points unfolded [fuel] times. *)
Fixpoint interp (fuel : nat) : Interp :=
  match fuel with
  | O => bottom
  | S n => step (interp n)
  end.

(** A call returns [v], or raises [e], when it does so however many times the
    entry points are unfolded beyond some depth. *)
Definition Returns {A : Type} (f : Interp -> Res A) (v : A) : Prop :=
  exists k, forall n, f (interp (k + n)) = Ok v.

Definition Raises {A : Type} (f : Interp -> Res A) (e : PyErr) : Prop :=
  exists k, forall n, f (interp (k + n)) = Raise e.

(* ------------------------------------------------------------------------- *)
(** ** Vocabulary of the statements *)

(** A descriptor object of class [c] as [Type.__init__] leaves it. *)
Definition T (c : WBClass) : PyObj := PyWB c None.

(** A descriptor object after a constructor that reads [self.params]. *)
Definition T' (c : WBClass) : PyObj := PyWB c (Some []).

(** The class that describes a value: the handler registered for the class of
    the value, [ObjectType] when there is none. *)
Definition handler_of (x : PyObj) : WBClass :=
  match class_get (py_class x) types_by_class with
  | Some class_handler => class_handler
  | None => ObjectType
  end.

(** Induction on a Python object, with the elements of a collection and the
    values of a dict as sub-objects. *)
Section PyObj_induction.

Variable P : PyObj -> Prop.
Hypothesis H_None : P PyNone.
Hypothesis H_Str : forall s, P (PyStr s).
Hypothesis H_Int : forall z, P (PyInt z).
Hypothesis H_Float : forall m e, P (PyFloat m e).
Hypothesis H_Bool : forall b, P (PyBool b).
Hypothesis H_List : forall xs, Forall P xs -> P (PyList xs).
Hypothesis H_Tuple : forall xs, Forall P xs -> P (PyTuple xs).
Hypothesis H_Set : forall xs, Forall P xs -> P (PySet xs).
Hypothesis H_Frozenset : forall xs, Forall P xs -> P (PyFrozenset xs).
Hypothesis H_Dict : forall d, Forall (fun kv => P (snd kv)) d -> P (PyDict d).
Hypothesis H_ClassObj : forall c, P (PyClassObj c).
Hypothesis H_WB : forall c p,
    match p with Some d => Forall (fun kv => P (snd kv)) d | None => True end ->
    P (PyWB c p).
Hypothesis H_Instance : forall n i, P (PyInstance n i).

Fixpoint PyObj_ind' (x : PyObj) : P x :=
  let all :=
    fix all (xs : list PyObj) : Forall P xs :=
      match xs with
      | [] => Forall_nil P
      | y :: ys => Forall_cons y (PyObj_ind' y) (all ys)
      end in
  let all_values :=
    fix all_values (d : list (string * PyObj)) : Forall (fun kv => P (snd kv)) d :=
      match d with
      | [] => Forall_nil _
      | (k, v) :: d' => Forall_cons (k, v) (PyObj_ind' v) (all_values d')
      end in
  match x with
  | PyNone => H_None
  | PyStr s => H_Str s
  | PyInt z => H_Int z
  | PyFloat m e => H_Float m e
  | PyBool b => H_Bool b
  | PyList xs => H_List xs (all xs)
  | PyTuple xs => H_Tuple xs (all xs)
  | PySet xs => H_Set xs (all xs)
  | PyFrozenset xs => H_Frozenset xs (all xs)
  | PyDict d => H_Dict d (all_values d)
  | PyClassObj c => H_ClassObj c
  | PyWB c p =>
      H_WB c p (match p with Some d => all_values d | None => I end)
  | PyInstance n i => H_Instance n i
  end.

End PyObj_induction.

(** A value that is not a list, tuple, set or frozenset, and whose values, if
    it is a dict, are of that kind too. *)
Fixpoint collection_free (x : PyObj) : bool :=
  match x with
  | PyList _ | PyTuple _ | PySet _ | PyFrozenset _ => false
  | PyDict d => forallb (fun kv => collection_free (snd kv)) d
  | _ => true
  end.

(** The classes without an [assign] or [assign_type] of their own that
    [type_of] can return for a value other than [None]. *)
Definition leaf_class (c : WBClass) : bool :=
  match c with
  | StringType | NumberType | BooleanType | ObjectType => true
  | _ => false
  end.

(** The classes that inherit [Type.assign] and [Type.assign_type] and can be
    instantiated: [None], the scalars, [Object] and [Const]. *)
Definition default_class (c : WBClass) : bool :=
  match c with
  | NoneType | StringType | NumberType | BooleanType | ObjectType | ConstType => true
  | _ => false
  end.

(** JSON data without descriptors: [None], strings, numbers, booleans, lists
    of such data, and dicts of such data without the key [wb_type]. *)
Fixpoint plain_json (x : PyObj) : bool :=
  match x with
  | PyNone | PyStr _ | PyInt _ | PyFloat _ _ | PyBool _ => true
  | PyList xs => forallb plain_json xs
  | PyDict d =>
      negb (mem "wb_type" (dict_keys d)) && forallb (fun kv => plain_json (snd kv)) d
  | _ => false
  end.

(** The order of the sort keys of [_union_assigner]. *)
Definition key_le (a b : string) : Prop := String.leb a b = true.

(** The call [_union_assigner] makes on a branch that is not [Unknown]
    (lines 379 and 381); the assertion of line 378 is a hypothesis of the
    statements that use it. *)
Definition branch_attempt (py : Interp) (obj_or_type : PyObj) (type_mode : bool)
    (allowed_type : PyObj) : Res PyObj :=
  if type_mode then i_assign_type py allowed_type obj_or_type
  else i_assign py allowed_type obj_or_type.

(** Evaluation of a call on given objects, with [k] unfoldings or more. *)
Ltac evaluate k := exists k; intro; vm_compute; reflexivity.

(* ------------------------------------------------------------------------- *)
(** ** General facts *)

Lemma bind_Ok_inv {A B : Type} (m : Res A) (k : A -> Res B) (v : B) :
  bind m k = Ok v -> exists a, m = Ok a /\ k a = Ok v.
Proof.
  destruct m as [a| |]; simpl; intro H; try discriminate.
  exists a; split; [reflexivity | exact H].
Qed.

Lemma bind_Raise_inv {A B : Type} (m : Res A) (k : A -> Res B) (e : PyErr) :
  bind m k = Raise e -> m = Raise e \/ exists a, m = Ok a /\ k a = Raise e.
Proof.
  destruct m as [a| |]; simpl; intro H; try discriminate.
  - right; exists a; split; [reflexivity | exact H].
  - left; congruence.
Qed.

(** Inversion of a sequence of calls that has returned. *)
Ltac invert_binds H :=
  repeat match type of H with
         | bind _ _ = Ok _ =>
             let a := fresh "a" in
             let Ha := fresh "Ha" in
             apply bind_Ok_inv in H as (a & Ha & H)
         end.

(** Past the depth at which a call returns, every depth gives the result. *)
Lemma Returns_from {A : Type} (f : Interp -> Res A) (v : A) :
  Returns f v -> exists k, forall m, k <= m -> f (interp m) = Ok v.
Proof.
  intros [k H]; exists k; intros m Hm.
  replace m with (k + (m - k)) by lia; apply H.
Qed.

Lemma Raises_from {A : Type} (f : Interp -> Res A) (e : PyErr) :
  Raises f e -> exists k, forall m, k <= m -> f (interp m) = Raise e.
Proof.
  intros [k H]; exists k; intros m Hm.
  replace m with (k + (m - k)) by lia; apply H.
Qed.

Lemma from_Returns {A : Type} (f : Interp -> Res A) (v : A) (k : nat) :
  (forall m, k <= m -> f (interp m) = Ok v) -> Returns f v.
Proof. intro H; exists k; intro n; apply H; lia. Qed.

Lemma from_Raises {A : Type} (f : Interp -> Res A) (e : PyErr) (k : nat) :
  (forall m, k <= m -> f (interp m) = Raise e) -> Raises f e.
Proof. intro H; exists k; intro n; apply H; lia. Qed.

(** A call has one outcome. *)
Lemma Returns_unique {A : Type} (f : Interp -> Res A) (v w : A) :
  Returns f v -> Returns f w -> v = w.
Proof.
  intros [k H] [k' H'].
  specialize (H k'); specialize (H' k).
  replace (k' + k) with (k + k') in H' by lia.
  rewrite H in H'; congruence.
Qed.

Lemma Returns_not_Raises {A : Type} (f : Interp -> Res A) (v : A) (e : PyErr) :
  Returns f v -> ~ Raises f e.
Proof.
  intros [k H] [k' H'].
  specialize (H k'); specialize (H' k).
  replace (k' + k) with (k + k') in H' by lia.
  rewrite H in H'; discriminate.
Qed.

(** The dict the property hands out has no entry, whatever [_params] holds. *)
Lemma params_empty (self : WBType) : fst (params self) = [].
Proof. reflexivity. Qed.

Lemma py_params_empty (c : WBClass) (p : option Dict) : py_params (PyWB c p) = Ok [].
Proof. reflexivity. Qed.

(** The class names are pairwise different. *)
Lemma name_inj (a b : WBClass) : name a = name b -> a = b.
Proof. destruct a, b; simpl; intro H; first [reflexivity | discriminate H]. Qed.

Lemma name_eqb_class (a b : WBClass) :
  String.eqb (name a) (name b) = WBClass_eqb a b.
Proof. destruct a, b; reflexivity. Qed.

Lemma WBClass_eqb_refl (c : WBClass) : WBClass_eqb c c = true.
Proof. destruct c; reflexivity. Qed.

Lemma WBClass_eqb_eq (a b : WBClass) : WBClass_eqb a b = true <-> a = b.
Proof.
  unfold WBClass_eqb; destruct (WBClass_eq_dec a b); split; congruence.
Qed.

(** An object built by a constructor has the class that was called, and its
    [_params] is unset or empty. *)
Lemma call_inv (py : Interp) (cls : WBClass) (args : Args) (x : PyObj) :
  call py cls args = Ok x -> x = T cls \/ x = T' cls.
Proof.
  unfold call; intro H.
  apply bind_Ok_inv in H as (self & Hinit & Hx).
  injection Hx as <-.
  destruct cls; simpl in Hinit;
    try (injection Hinit as <-; left; reflexivity);
    apply bind_Ok_inv in Hinit as (a & _ & Hinit);
    destruct a as [|a1 [|a2 [|a3 a]]]; try discriminate Hinit.
  - (* ObjectType *)
    injection Hinit as <-; right; reflexivity.
  - (* ConstType *)
    unfold ConstType___init__ in Hinit.
    apply bind_Ok_inv in Hinit as (r & _ & Hinit).
    injection Hinit as <-; right; reflexivity.
  - (* UnionType *)
    unfold UnionType___init__ in Hinit.
    apply bind_Ok_inv in Hinit as (r & _ & Hinit).
    injection Hinit as <-; right; reflexivity.
  - (* ListType *)
    unfold ListType___init__ in Hinit.
    apply bind_Ok_inv in Hinit as (r & _ & Hinit).
    injection Hinit as <-; right; reflexivity.
  - (* DictType *)
    unfold DictType___init__ in Hinit.
    apply bind_Ok_inv in Hinit as (r & _ & Hinit).
    injection Hinit as <-; right; reflexivity.
Qed.

(** [to_json] of a descriptor object is its name and nothing else. *)
Lemma to_json_name (c : WBClass) (p : option Dict) (n : nat) :
  to_json (interp (1 + n)) (PyWB c p) = Ok (PyDict [("wb_type", PyStr (name c))]).
Proof. reflexivity. Qed.

(* ------------------------------------------------------------------------- *)
(** ** The [params] property (C9) *)

(** C9.  On every descriptor the property [params] evaluates to the empty
    dict, whatever the constructor was given: an object returned by a
    constructor of a built-in class, called with any arguments, has that class
    and empty [params]; hence [to_json] has the key [wb_type] only, and two
    descriptors compare equal exactly when the names of their classes are
    equal. *)
Theorem params_is_always_empty :
  (forall self : WBType, fst (params self) = []) /\
  (forall (cls : WBClass) (args : Args) (x : PyObj),
      Returns (fun py => call py cls args) x ->
      isinstance x cls = true /\ py_params x = Ok []) /\
  (forall self : WBType,
      Returns (fun py => to_json py self)
              (PyDict [("wb_type", PyStr (name (__class__ self)))])) /\
  (forall self other : WBType,
      Returns (fun py => Type___eq__ py self other)
              (String.eqb (name (__class__ self)) (name (__class__ other)))).
Proof.
  split; [exact params_empty |].
  split.
  - intros cls args x [k H].
    specialize (H 0).
    destruct (call_inv _ _ _ _ H) as [-> | ->]; simpl;
      rewrite WBClass_eqb_refl; split; reflexivity.
  - split.
    + intros [c p]; exists 1; intro n; apply to_json_name.
    + intros [c p] [c' p']; exists 3; intro n.
      change (Type___eq__ (interp (3 + n)) (mkType c p) (PyWB c' p')
              = Ok (String.eqb (name c) (name c'))).
      destruct c, c'; reflexivity.
Qed.

(** [ObjectType("Foo")]: the class name given to the constructor is not in
    [params]. *)
Lemma params_is_always_empty_witness :
  isinstance (T' ObjectType) ObjectType = true /\ py_params (T' ObjectType) = Ok [].
Proof.
  apply (proj1 (proj2 params_is_always_empty) ObjectType (pos [PyStr "Foo"])).
  exists 0; intro n; reflexivity.
Defined.

(* ------------------------------------------------------------------------- *)
(** ** Serialization round trip (C1) *)

(** C1.  The round trip fails on an [Object] descriptor: [to_json] of
    [ObjectType("Foo")] is the dict with the key [wb_type] only, and
    [type_from_dict] (as [ObjectType.from_json]) of that dict calls
    [ObjectType()] without its class name, a [TypeError]. *)
Theorem roundtrip_raises_on_ObjectType :
  Returns (fun py => call py ObjectType (pos [PyStr "Foo"])) (T' ObjectType) /\
  Returns (fun py => to_json py (T' ObjectType)) (PyDict [("wb_type", PyStr "object")]) /\
  Raises (fun py => TypeRegistry_type_from_dict py (PyDict [("wb_type", PyStr "object")]))
         TypeError /\
  Raises (fun py => Type_from_json py ObjectType (PyDict [("wb_type", PyStr "object")]))
         TypeError /\
  Raises (fun py => x <- call py ObjectType (pos [PyStr "Foo"]) ;;
                    j <- to_json py x ;;
                    TypeRegistry_type_from_dict py j)
         TypeError.
Proof.
  repeat split; evaluate 3.
Qed.

(** For a descriptor of any other class the round trip returns a descriptor
    of the same class. *)
Lemma roundtrip_returns_on_other_classes (c : WBClass) (p : option Dict) :
  c <> ObjectType ->
  exists p', Returns (fun py => j <- to_json py (PyWB c p) ;;
                               TypeRegistry_type_from_dict py j)
                     (PyWB c p').
Proof.
  intro Hc.
  destruct c; try (exfalso; apply Hc; reflexivity);
    first [ exists None; evaluate 3 | exists (Some []); evaluate 3 ].
Qed.

(* ------------------------------------------------------------------------- *)
(** ** Union assignment (C2, C10) *)

(** [UnionType.assign] and [UnionType.assign_type] raise [KeyError] at their
    first look into [params], on every union and every argument. *)
Lemma UnionType_assign_KeyError (py : Interp) (self : WBType) (py_obj : PyObj) :
  UnionType_assign py self py_obj = Raise KeyError.
Proof. reflexivity. Qed.

Lemma UnionType_assign_type_KeyError (py : Interp) (self : WBType) (wb_type : PyObj) :
  UnionType_assign_type py self wb_type = Raise KeyError.
Proof.
  unfold UnionType_assign_type.
  destruct (isinstance wb_type UnionType) eqn:E.
  - destruct wb_type; try discriminate E; reflexivity.
  - reflexivity.
Qed.

(** C2.  [Union([String, Unknown]).assign(1)]: the union is built, and the
    assignment raises [KeyError]; the resolution procedure, given the two
    branches themselves, does return [Number, String]. *)
Theorem union_assign_number_raises_KeyError :
  Returns (fun py => call py UnionType (pos [PyList [T StringType; T UnknownType]]))
          (T' UnionType) /\
  (forall py, assign py (T' UnionType) (PyInt 1) = Raise KeyError) /\
  Raises (fun py => u <- call py UnionType (pos [PyList [T StringType; T UnknownType]]) ;;
                    assign py u (PyInt 1))
         KeyError /\
  Returns (fun py => _union_assigner py (PyList [T StringType; T UnknownType]) (PyInt 1) false)
          (PyList [T' NumberType; T' StringType]).
Proof.
  split; [evaluate 2 |].
  split; [intro py; reflexivity |].
  split; evaluate 5.
Qed.

(** C10.  [Union([Unknown]).assign_type(NoneType())] raises [KeyError].  The
    resolution procedure itself, on the branch list [[Unknown]], appends the
    incoming [None] descriptor in type mode and answers [Never] to the value
    [None] in value mode. *)
Theorem union_assign_type_None_raises_KeyError :
  Returns (fun py => call py UnionType (pos [PyList [T UnknownType]])) (T' UnionType) /\
  (forall py, assign_type py (T' UnionType) (T NoneType) = Raise KeyError) /\
  Raises (fun py => u <- call py UnionType (pos [PyList [T UnknownType]]) ;;
                    n <- instantiate NoneType ;;
                    assign_type py u n)
         KeyError /\
  Returns (fun py => _union_assigner py (PyList [T UnknownType]) (T NoneType) true)
          (PyList [T' NoneType]) /\
  Returns (fun py => _union_assigner py (PyList [T UnknownType]) PyNone false)
          (T NeverType).
Proof.
  split; [evaluate 2 |].
  split; [intro py; reflexivity |].
  repeat split; evaluate 5.
Qed.

(* ------------------------------------------------------------------------- *)
(** ** Dictionary assignment (C3) *)

(** C3.  [DictType.assign] raises [KeyError] on every dict, whatever the keys
    of the dict and of the descriptor: on [Dictionary({"a": Number})] with
    [{"a": 1, "b": 2}], where the keys differ, and with [{"a": 1}], where they
    agree. *)
Theorem dict_assign_raises_KeyError :
  (forall py (self : WBType) (d : Dict), DictType_assign py self (PyDict d) = Raise KeyError) /\
  Returns (fun py => call py DictType (pos [PyDict [("a", T NumberType)]])) (T' DictType) /\
  Raises (fun py => D <- call py DictType (pos [PyDict [("a", T NumberType)]]) ;;
                    assign py D (PyDict [("a", PyInt 1); ("b", PyInt 2)]))
         KeyError /\
  Raises (fun py => D <- call py DictType (pos [PyDict [("a", T NumberType)]]) ;;
                    assign py D (PyDict [("a", PyInt 1)]))
         KeyError.
Proof.
  split; [intros; reflexivity |].
  repeat split; evaluate 3.
Qed.

(* ------------------------------------------------------------------------- *)
(** ** [DictType.__init__] on an object that is no dict *)

Lemma type_from_dtype_index (py : Interp) (v : PyObj) (z : Z) :
  index_val v = Some z -> TypeRegistry_type_from_dtype py v = Raise TypeError.
Proof. destruct v; try discriminate; intros _; reflexivity. Qed.

Lemma i_type_from_dtype_index (n : nat) (v t : PyObj) :
  i_type_from_dtype (interp n) v = Ok t -> index_val v = None.
Proof.
  destruct n as [|n]; [discriminate |].
  change (i_type_from_dtype (interp (S n))) with (TypeRegistry_type_from_dtype (interp n)).
  destruct (index_val v) as [z|] eqn:E; [| reflexivity].
  rewrite (type_from_dtype_index _ _ _ E). discriminate.
Qed.

Lemma seq_getitem_inv (xs : list PyObj) (key v : PyObj) :
  seq_getitem xs key = Ok v -> index_val key <> None /\ In v xs.
Proof.
  unfold seq_getitem. destruct (index_val key) as [z|]; [| discriminate].
  cbv zeta.
  destruct (_ && _); [| discriminate].
  destruct (nth_error xs _) as [w|] eqn:E; [| discriminate].
  intro H; injection H as <-. split; [discriminate | eapply nth_error_In, E].
Qed.

(** Where the comprehension over a sequence returns, every key is an index
    and points at an entry that is none. *)
Lemma DictType_comprehension_keys (n : nat) (type_map : PyObj) (xs keys : list PyObj)
    (acc r : Dict) :
  (forall key, py_subscript type_map key = seq_getitem xs key) ->
  DictType_comprehension (interp n) type_map keys acc = Ok r ->
  Forall (fun key => index_val key <> None /\
                     exists v, In v xs /\ index_val v = None) keys.
Proof.
  intro Hsub. revert acc.
  induction keys as [|key rest IH]; intros acc H; [constructor |].
  cbn [DictType_comprehension] in H.
  apply bind_Ok_inv in H as (v & Hv & H).
  apply bind_Ok_inv in H as (t & Ht & H).
  destruct (hashable key); [| discriminate H].
  rewrite Hsub in Hv. apply seq_getitem_inv in Hv as [Hkey Hin].
  apply i_type_from_dtype_index in Ht.
  constructor; [| exact (IH _ H)].
  split; [exact Hkey | exists v; split; assumption].
Qed.

Lemma DictType_comprehension_of_sequence (n : nat) (type_map : PyObj) (xs : list PyObj)
    (r : Dict) :
  (forall key, py_subscript type_map key = seq_getitem xs key) ->
  DictType_comprehension (interp n) type_map xs [] = Ok r -> xs = [] /\ r = [].
Proof.
  intros Hsub H.
  destruct xs as [|x xs]; [injection H as <-; split; reflexivity |].
  pose proof (DictType_comprehension_keys _ _ _ _ _ _ Hsub H) as Hall.
  pose proof (Forall_inv Hall) as (_ & v & Hin & Hv).
  rewrite Forall_forall in Hall. destruct (Hall v Hin) as [Hv' _].
  contradiction.
Qed.

(** The comprehension of [DictType.__init__] over an object that is no dict
    returns for an object without keys only, and returns the empty dict. *)
Lemma DictType_comprehension_returns_on_no_key (n : nat) (type_map : PyObj)
    (keys : list PyObj) (r : Dict) :
  is_dict type_map = false ->
  py_iter type_map = Ok keys ->
  DictType_comprehension (interp n) type_map keys [] = Ok r ->
  keys = [] /\ r = [].
Proof.
  intros Hd Hkeys H.
  destruct type_map as [|s| | | |xs|xs|xs|xs|d| | |];
    try discriminate Hd; try discriminate Hkeys;
    cbn [py_iter] in Hkeys; injection Hkeys as <-.
  - apply (DictType_comprehension_of_sequence n (PyStr s) _ r); [| exact H].
    intro key; reflexivity.
  - apply (DictType_comprehension_of_sequence n (PyList xs) _ r); [| exact H].
    intro key; reflexivity.
  - apply (DictType_comprehension_of_sequence n (PyTuple xs) _ r); [| exact H].
    intro key; reflexivity.
  - destruct xs as [|x xs]; [injection H as <-; split; reflexivity | discriminate H].
  - destruct xs as [|x xs]; [injection H as <-; split; reflexivity | discriminate H].
Qed.

(** [DictType([])] and [DictType(())] return a [Dictionary] descriptor;
    [DictType([0])] raises [TypeError] from [type_from_dtype(0)],
    [DictType([5])] raises [IndexError], [DictType({1})] and [DictType("a")]
    raise [TypeError] from the subscript, and [DictType(1)] raises
    [TypeError] from the iteration. *)
Lemma DictType_of_an_object_that_is_no_dict :
  Returns (fun py => call py DictType (pos [PyList []])) (T' DictType) /\
  Returns (fun py => call py DictType (pos [PyTuple []])) (T' DictType) /\
  Raises (fun py => call py DictType (pos [PyList [PyInt 0]])) TypeError /\
  Raises (fun py => call py DictType (pos [PyList [PyInt 5]])) IndexError /\
  Raises (fun py => call py DictType (pos [PySet [PyInt 1]])) TypeError /\
  Raises (fun py => call py DictType (pos [PyStr "a"])) TypeError /\
  Raises (fun py => call py DictType (pos [PyInt 1])) TypeError.
Proof. repeat split; evaluate 2. Qed.

(* ------------------------------------------------------------------------- *)
(** ** Errors that are built and not raised (C5) *)

Lemma type_from_dict_without_wb_type (py : Interp) (d : Dict) :
  dict_get "wb_type" d = None ->
  TypeRegistry_type_from_dict py (PyDict d) = Raise AttributeError.
Proof.
  intro H. unfold TypeRegistry_type_from_dict, py_get. rewrite H. reflexivity.
Qed.

Lemma type_from_dict_unregistered (py : Interp) (d : Dict) (s : string) :
  dict_get "wb_type" d = Some (PyStr s) ->
  name_get s types_by_name = None ->
  TypeRegistry_type_from_dict py (PyDict d) = Raise AttributeError.
Proof.
  intros H Hs. unfold TypeRegistry_type_from_dict, py_get. rewrite H.
  cbn [bind]. unfold types_by_name_get. cbn [hashable bind]. rewrite Hs. reflexivity.
Qed.

(** [ConstType(val)] returns for a value that is not a set, whatever its
    class. *)
Lemma ConstType_accepts_any_class (py : Interp) (val : PyObj) :
  is_set val = false ->
  call py ConstType (pos [val]) = Ok (T' ConstType).
Proof.
  intro H. unfold call. cbn [pos positional keywords bind_args dict_get bind].
  unfold ConstType___init__. cbn [truthy orb]. rewrite H. reflexivity.
Qed.

(** C5.  [type_from_dict] on a dict without [wb_type], or with a name that is
    not registered, goes on to [None.from_json], an [AttributeError]; and
    [ConstType] accepts a value of a kind it does not support (a dict, a
    tuple, an instance of another class) and returns a [Const] descriptor. *)
Theorem unraised_type_errors :
  (forall py, TypeRegistry_type_from_dict py (PyDict []) = Raise AttributeError) /\
  (forall py, TypeRegistry_type_from_dict py (PyDict [("wb_type", PyStr "nope")])
              = Raise AttributeError) /\
  (forall py d, call py ConstType (pos [PyDict d]) = Ok (T' ConstType)) /\
  (forall py xs, call py ConstType (pos [PyTuple xs]) = Ok (T' ConstType)) /\
  (forall py c i, call py ConstType (pos [PyInstance c i]) = Ok (T' ConstType)).
Proof.
  repeat split; intros; reflexivity.
Qed.

(* ------------------------------------------------------------------------- *)
(** ** [type_of] and the leaf classes (C6, C8) *)

(** When [type_of] returns, it returns a descriptor of the class [handler_of]
    gives. *)
Lemma type_of_inv (py : Interp) (x d : PyObj) :
  TypeRegistry_type_of py x = Ok d -> d = T (handler_of x) \/ d = T' (handler_of x).
Proof.
  unfold TypeRegistry_type_of, handler_of.
  destruct (class_get (py_class x) types_by_class) as [h|]; intro H.
  - unfold from_obj, Type_from_obj, ObjectType_from_obj, ConstType_from_obj in H.
    destruct h;
      try (apply call_inv in H; exact H).
    + unfold ListType_from_obj in H.
      revert H.
      destruct (is_None x || negb (is_list_like x)); intro H; [discriminate H |].
      invert_binds H. apply call_inv in H; exact H.
    + unfold DictType_from_obj in H.
      cbv zeta in H.
      invert_binds H.
      destruct x; try discriminate H.
      invert_binds H. apply call_inv in H; exact H.
  - unfold ObjectType_from_obj in H. apply call_inv in H; exact H.
Qed.

Lemma handler_of_None (x : PyObj) :
  WBClass_eqb (handler_of x) NoneType = is_None x.
Proof. destruct x; reflexivity. Qed.

Lemma handler_of_not_Never (x : PyObj) :
  WBClass_eqb (handler_of x) NeverType = false.
Proof. destruct x; reflexivity. Qed.

(** C8, as amended.  [Never.assign_type] returns the [Never] descriptor it
    was called on, for every argument.  [Any.assign(x)] first asks [type_of]
    for the type of [x]: when [type_of] returns, the result is [Never] if [x]
    is [None] and the [Any] descriptor otherwise; when [type_of] raises,
    [Any.assign(x)] raises the same error. *)
Theorem Never_absorbs_and_Any_follows_type_of :
  (forall py (p : option Dict) (X : PyObj),
      assign_type py (PyWB NeverType p) X = Ok (PyWB NeverType p)) /\
  (forall (p : option Dict) (x d : PyObj),
      Returns (fun py => TypeRegistry_type_of py x) d ->
      Returns (fun py => assign py (PyWB AnyType p) x)
              (if is_None x then T NeverType else PyWB AnyType p)) /\
  (forall (p : option Dict) (x : PyObj) (e : PyErr),
      Raises (fun py => TypeRegistry_type_of py x) e ->
      Raises (fun py => assign py (PyWB AnyType p) x) e).
Proof.
  split; [intros; reflexivity |].
  split.
  - intros p x d [k H]; exists (S (S k)); intro n.
    change (assign (interp (S (S k) + n)) (PyWB AnyType p) x)
      with (bind (TypeRegistry_type_of (interp (S (k + n))) x)
                 (fun wb_type => assign_type (interp (S (k + n))) (PyWB AnyType p) wb_type)).
    replace (S (k + n)) with (k + S n) by lia.
    rewrite H; simpl bind.
    specialize (H 0).
    apply type_of_inv in H.
    unfold assign_type, AnyType_assign_type.
    destruct H as [-> | ->]; unfold T, T', isinstance;
      rewrite handler_of_None, handler_of_not_Never;
      destruct (is_None x); reflexivity.
  - intros p x e [k H]; exists (S (S k)); intro n.
    change (assign (interp (S (S k) + n)) (PyWB AnyType p) x)
      with (bind (TypeRegistry_type_of (interp (S (k + n))) x)
                 (fun wb_type => assign_type (interp (S (k + n))) (PyWB AnyType p) wb_type)).
    replace (S (k + n)) with (k + S n) by lia.
    rewrite H; reflexivity.
Qed.

(** [Any.assign(3)] is the [Any] descriptor. *)
Lemma Never_absorbs_and_Any_follows_type_of_witness :
  Returns (fun py => assign py (T AnyType) (PyInt 3)) (T AnyType).
Proof.
  apply (proj1 (proj2 Never_absorbs_and_Any_follows_type_of) None (PyInt 3) (T NumberType)).
  exists 1; intro n; reflexivity.
Defined.

(** C8 as stated fails: the list [[1, "x"]] is not [None], and assigning it
    to [Any] raises the [TypeError] of [ListType.from_obj]. *)
Lemma Any_assign_raises_on_mixed_list :
  Raises (fun py => assign py (T AnyType) (PyList [PyInt 1; PyStr "x"])) TypeError.
Proof. evaluate 6. Qed.

(* ------------------------------------------------------------------------- *)
(** ** List assignment (C4) *)

(** The loop of [ListType.assign] over a list in two parts: the second part
    starts from the element type the first part ends with, and is not run
    when the first part has returned [Never]. *)
Lemma ListType_assign_loop_app (py : Interp) (t : PyObj) (pre post : list PyObj) :
  ListType_assign_loop py t (pre ++ post)%list =
  (r <- ListType_assign_loop py t pre ;;
   match r with
   | None => Ok None
   | Some t' => ListType_assign_loop py t' post
   end).
Proof.
  revert t; induction pre as [|x pre IH]; intro t; simpl.
  - reflexivity.
  - destruct (i_assign py t x) as [t'| |]; simpl; try reflexivity.
    destruct (isinstance t' NeverType); [reflexivity | apply IH].
Qed.

(** C4, as amended.  A value that is not a list, tuple, set or frozenset is
    rejected with [Never].  The loop of [ListType.assign] assigns the
    elements one after the other, each to the element type the elements
    before it have produced, and its outcome is [Never] as soon as one element
    is assigned with the result [Never].  Starting from [Unknown], the
    elements [1, 2] give [Number], and [1, 2, "x"] give [Never]: a [Number]
    element type is not widened to a union by a string. *)
Theorem list_assign_folds_until_first_failure :
  (forall py (self : WBType) (x : PyObj),
      is_list_like x = false -> ListType_assign py self x = Ok (T NeverType)) /\
  (forall py (t : PyObj) (pre post : list PyObj),
      ListType_assign_loop py t (pre ++ post)%list =
      (r <- ListType_assign_loop py t pre ;;
       match r with
       | None => Ok None
       | Some t' => ListType_assign_loop py t' post
       end)) /\
  (forall py (t t' x bad : PyObj) (pre post : list PyObj),
      ListType_assign_loop py t pre = Ok (Some t') ->
      i_assign py t' x = Ok bad ->
      isinstance bad NeverType = true ->
      ListType_assign_loop py t (pre ++ x :: post)%list = Ok None) /\
  Returns (fun py => u <- instantiate UnknownType ;;
                     ListType_assign_loop py u [PyInt 1; PyInt 2])
          (Some (T' NumberType)) /\
  Returns (fun py => u <- instantiate UnknownType ;;
                     ListType_assign_loop py u [PyInt 1; PyInt 2; PyStr "x"])
          None.
Proof.
  split.
  - intros py self x Hx. unfold ListType_assign. rewrite Hx. reflexivity.
  - split; [exact ListType_assign_loop_app |].
    split.
    + intros py t t' x bad pre post Hpre Hx Hbad.
      rewrite ListType_assign_loop_app, Hpre. simpl.
      rewrite Hx. simpl. rewrite Hbad. reflexivity.
    + split; evaluate 5.
Qed.

(** The string ["x"] after [1] and [2], by the general statement. *)
Lemma list_assign_folds_until_first_failure_witness :
  ListType_assign (interp 5) (mkType ListType None) (PyInt 7) = Ok (T NeverType) /\
  ListType_assign_loop (interp 5) (T UnknownType) ([PyInt 1; PyInt 2] ++ PyStr "x" :: [PyInt 3])%list
  = Ok None.
Proof.
  split.
  - apply (proj1 list_assign_folds_until_first_failure); reflexivity.
  - apply (proj1 (proj2 (proj2 list_assign_folds_until_first_failure))
             (interp 5) (T UnknownType) (T' NumberType) (PyStr "x") (T NeverType));
      reflexivity.
Defined.

(** C4 as stated fails: [List().assign([1, 2, "x"])] raises [KeyError], so it
    returns no [List] at all; and the loop it would run, from the element type
    [Unknown], ends with [Never]. *)
Lemma list_assign_mixed_list_is_no_union :
  Returns (fun py => call py ListType no_args) (T' ListType) /\
  Raises (fun py => l <- call py ListType no_args ;;
                    assign py l (PyList [PyInt 1; PyInt 2; PyStr "x"]))
         KeyError /\
  Returns (fun py => u <- instantiate UnknownType ;;
                     ListType_assign_loop py u [PyInt 1; PyInt 2; PyStr "x"])
          None.
Proof. repeat split; evaluate 5. Qed.

(* ------------------------------------------------------------------------- *)
(** ** Construction of a union (C7) *)

Lemma type_from_dtype_descriptor (py : Interp) (t : WBType) :
  TypeRegistry_type_from_dtype py t = Ok (obj_of t).
Proof. reflexivity. Qed.

Lemma mapM_type_from_dtype_descriptors (py : Interp) (ts : list WBType) :
  mapM (TypeRegistry_type_from_dtype py) (map obj_of ts) = Ok (map obj_of ts).
Proof.
  induction ts as [|t ts IH]; cbn [mapM map].
  - reflexivity.
  - rewrite type_from_dtype_descriptor. cbn [bind]. rewrite IH. reflexivity.
Qed.

Lemma UnionType_wb_types_descriptors (n : nat) (ts : list WBType) :
  UnionType_wb_types (interp (1 + n)) (PyList (map obj_of ts)) = Ok (map obj_of ts).
Proof.
  unfold UnionType_wb_types; simpl.
  apply mapM_type_from_dtype_descriptors.
Qed.


(** The constructor of [Union] coerces each branch it is given with
    [type_from_dtype], which hands a descriptor back as it is, and keeps the
    list in the order and with the nesting it was given: lines 418-427 neither
    flatten nor sort.  The list goes to [self.params.update], that is, into a
    dict that is dropped. *)
Lemma UnionType_wb_types_as_given (A B C : WBType) :
  Returns (fun py => UnionType_wb_types py (PyList [T' UnionType; obj_of C]))
          [T' UnionType; obj_of C] /\
  Returns (fun py => UnionType_wb_types py (PyList [obj_of A; obj_of B; obj_of C]))
          [obj_of A; obj_of B; obj_of C].
Proof.
  split; exists 1; intro n.
  - exact (UnionType_wb_types_descriptors n [mkType UnionType (Some []); C]).
  - exact (UnionType_wb_types_descriptors n [A; B; C]).
Qed.




(** The branch lists of the two constructions differ all the same: built from
    [Union([String, Number])] and [Boolean], the list is the nested union and
    [Boolean], two entries, where [Union([String, Number, Boolean])] has
    three; and [_flatten_union_types] on the nested list raises [KeyError]. *)
Lemma union_constructor_does_not_flatten :
  Returns (fun py => u <- call py UnionType (pos [PyList [T StringType; T NumberType]]) ;;
                     UnionType_wb_types py (PyList [u; T BooleanType]))
          [T' UnionType; T BooleanType] /\
  Returns (fun py => UnionType_wb_types py (PyList [T StringType; T NumberType; T BooleanType]))
          [T StringType; T NumberType; T BooleanType] /\
  Raises (fun py => u <- call py UnionType (pos [PyList [T StringType; T NumberType]]) ;;
                    _flatten_union_types py (PyList [u; T BooleanType]))
         KeyError.
Proof. repeat split; evaluate 3. Qed.

(* ------------------------------------------------------------------------- *)
(** ** [type_of] on values (C6) *)

Lemma type_from_dtype_isinstance_Type (py : Interp) (v : PyObj) :
  isinstance_Type v = true -> TypeRegistry_type_from_dtype py v = Ok v.
Proof. intro H; unfold TypeRegistry_type_from_dtype; rewrite H; reflexivity. Qed.

Lemma map_valuesM_type_from_dtype (py : Interp) (m : Dict) :
  Forall (fun kv => isinstance_Type (snd kv) = true) m ->
  map_valuesM (TypeRegistry_type_from_dtype py) m = Ok m.
Proof.
  induction 1 as [|[k v] m Hv _ IH]; cbn [map_valuesM].
  - reflexivity.
  - rewrite (type_from_dtype_isinstance_Type py v Hv). cbn [bind].
    rewrite IH. reflexivity.
Qed.

Lemma map_valuesM_type_of (d : Dict) :
  Forall (fun kv => exists p,
              Returns (fun py => TypeRegistry_type_of py (snd kv))
                      (PyWB (handler_of (snd kv)) p)) d ->
  exists m k,
    (forall n, k <= n -> map_valuesM (TypeRegistry_type_of (interp n)) d = Ok m) /\
    Forall (fun kv => isinstance_Type (snd kv) = true) m.
Proof.
  induction 1 as [|[key v] d [p Hv] _ (m & k & Hm & Hall)].
  - exists [], 0; split; [reflexivity | constructor].
  - apply Returns_from in Hv as [k' Hv]. simpl in Hv.
    exists ((key, PyWB (handler_of v) p) :: m), (Nat.max k k'); split.
    + intros n Hn. cbn [map_valuesM].
      rewrite Hv by lia. cbn [bind]. rewrite Hm by lia. reflexivity.
    + constructor; [reflexivity | exact Hall].
Qed.

(** [type_of] on a dict, one unfolding down. *)
Lemma type_of_dict_unfold (py : Interp) (d : Dict) :
  TypeRegistry_type_of (step py) (PyDict d) =
  (m <- map_valuesM (TypeRegistry_type_of py) d ;;
   _ <- map_valuesM (TypeRegistry_type_from_dtype py) m ;;
   Ok (T' DictType)).
Proof.
  unfold TypeRegistry_type_of at 1.
  change (class_get (py_class (PyDict d)) types_by_class) with (Some DictType).
  cbv iota beta. unfold from_obj, DictType_from_obj. cbv zeta.
  change (i_type_of (step py)) with (TypeRegistry_type_of py).
  cbn [is_dict py_assert bind].
  destruct (map_valuesM (TypeRegistry_type_of py) d) as [m| |]; cbn [bind]; try reflexivity.
  unfold call. cbn [pos positional keywords bind_args dict_get bind].
  unfold DictType___init__. cbn [is_None].
  change (i_type_from_dtype (step py)) with (TypeRegistry_type_from_dtype py).
  destruct (map_valuesM (TypeRegistry_type_from_dtype py) m); reflexivity.
Qed.

Lemma type_of_collection_free (x : PyObj) :
  collection_free x = true ->
  exists p, Returns (fun py => TypeRegistry_type_of py x) (PyWB (handler_of x) p).
Proof.
  induction x as [ | s | z | m e | b | xs _ | xs _ | xs _ | xs _ | d IH | c | c p _ | c i ]
    using PyObj_ind'; intro Hcf; try discriminate Hcf;
    try (exists None; exists 0; intro n; reflexivity);
    try (exists (Some []); exists 0; intro n; reflexivity).
  (* a dict *)
  assert (Hvalues : Forall (fun kv => exists p,
                                Returns (fun py => TypeRegistry_type_of py (snd kv))
                                        (PyWB (handler_of (snd kv)) p)) d).
  { simpl in Hcf. rewrite forallb_forall in Hcf.
    rewrite Forall_forall in IH |- *.
    intros kv Hin. apply (IH kv Hin). apply Hcf, Hin. }
  destruct (map_valuesM_type_of d Hvalues) as (m & k & Hm & Hall).
  exists (Some []); exists (S k); intro n.
  change (interp (S k + n)) with (step (interp (k + n))).
  rewrite type_of_dict_unfold, Hm by lia. cbn [bind].
  rewrite (map_valuesM_type_from_dtype _ m Hall). reflexivity.
Qed.

(** [type_of] on a value of a leaf class needs no unfolding. *)
Lemma type_of_leaf (py : Interp) (y : PyObj) :
  leaf_class (handler_of y) = true ->
  exists p, TypeRegistry_type_of py y = Ok (PyWB (handler_of y) p).
Proof.
  destruct y; intro H; try discriminate H;
    first [ exists None; reflexivity | exists (Some []); reflexivity ].
Qed.

Lemma leaf_class_not_None (c : WBClass) :
  leaf_class c = true -> WBClass_eqb c NoneType = false.
Proof. destruct c; intro H; first [discriminate H | reflexivity]. Qed.

Lemma leaf_class_not_Never (c : WBClass) :
  leaf_class c = true -> WBClass_eqb c NeverType = false.
Proof. destruct c; intro H; first [discriminate H | reflexivity]. Qed.

(** Assigning a value of the leaf class [c] to [Unknown], or to a descriptor
    of class [c], gives a descriptor of class [c]. *)
Lemma assign_leaf_value (n : nat) (c : WBClass) (t y : PyObj) :
  leaf_class c = true ->
  handler_of y = c ->
  t = T UnknownType \/ (exists p, t = PyWB c p) ->
  exists p', i_assign (interp (4 + n)) t y = Ok (PyWB c p').
Proof.
  intros Hc Hy Ht.
  change (i_assign (interp (4 + n)) t y) with (assign (interp (3 + n)) t y).
  destruct (type_of_leaf (interp (2 + n)) y) as [q Hq]; [rewrite Hy; exact Hc |].
  rewrite Hy in Hq.
  destruct Ht as [-> | [p ->]].
  - exists q. unfold T, assign. cbv iota beta. unfold Type_assign.
    change (i_type_of (interp (3 + n))) with (TypeRegistry_type_of (interp (2 + n))).
    rewrite Hq. cbn [bind].
    change (i_assign_type (interp (3 + n)) (mkType UnknownType None) (PyWB c q))
      with (UnknownType_assign_type (mkType UnknownType None) (PyWB c q)).
    unfold UnknownType_assign_type, isinstance.
    rewrite (leaf_class_not_None c Hc). reflexivity.
  - exists (match p with None => Some [] | Some d => Some d end).
    assert (Hassign : assign (interp (3 + n)) (PyWB c p) y
                      = Type_assign (interp (3 + n)) (mkType c p) y).
    { destruct c; first [discriminate Hc | reflexivity]. }
    rewrite Hassign. unfold Type_assign.
    change (i_type_of (interp (3 + n))) with (TypeRegistry_type_of (interp (2 + n))).
    rewrite Hq. cbn [bind].
    change (i_assign_type (interp (3 + n)) (mkType c p) (PyWB c q))
      with (assign_type (interp (2 + n)) (PyWB c p) (PyWB c q)).
    destruct c; try discriminate Hc; destruct p; reflexivity.
Qed.

(** The loop of [ListType.from_obj] over values of one leaf class. *)
Lemma ListType_from_obj_loop_leaf (n : nat) (c : WBClass) (ys : list PyObj) :
  leaf_class c = true ->
  Forall (fun y => handler_of y = c) ys ->
  forall t, t = T UnknownType \/ (exists p, t = PyWB c p) ->
  exists t', ListType_from_obj_loop (interp (4 + n)) t ys = Ok t'
             /\ isinstance_Type t' = true.
Proof.
  intros Hc Hall; induction Hall as [|y ys Hy _ IH]; intros t Ht.
  - exists t; split; [reflexivity |].
    destruct Ht as [-> | [p ->]]; reflexivity.
  - destruct (assign_leaf_value n c t y Hc Hy Ht) as [p' Hstep].
    cbn [ListType_from_obj_loop]. rewrite Hstep. cbn [bind].
    unfold isinstance at 1. rewrite (leaf_class_not_Never c Hc).
    apply IH. right; exists p'; reflexivity.
Qed.

Lemma no_None_among_leaf_values (c : WBClass) (ys : list PyObj) :
  leaf_class c = true ->
  Forall (fun y => handler_of y = c) ys ->
  existsb is_None ys = false.
Proof.
  intros Hc Hall; induction Hall as [|y ys Hy _ IH]; [reflexivity |].
  cbn [existsb]. rewrite IH, orb_false_r.
  rewrite <- handler_of_None, Hy. apply leaf_class_not_None, Hc.
Qed.

(** [type_of] on a collection of values of one leaf class. *)
Lemma type_of_collection_of_leaf_values (x : PyObj) (ys : list PyObj) (c : WBClass) :
  is_list_like x = true ->
  py_iter x = Ok ys ->
  leaf_class c = true ->
  Forall (fun y => handler_of y = c) ys ->
  Returns (fun py => TypeRegistry_type_of py x) (T' ListType).
Proof.
  intros Hx Hiter Hc Hall. exists 4; intro n.
  assert (Hof : TypeRegistry_type_of (interp (4 + n)) x
                = ListType_from_obj (interp (4 + n)) ListType x).
  { destruct x; first [discriminate Hx | reflexivity]. }
  rewrite Hof. unfold ListType_from_obj.
  replace (is_None x) with false by (destruct x; first [discriminate Hx | reflexivity]).
  rewrite Hx, Hiter. cbn [negb orb bind].
  rewrite (no_None_among_leaf_values c ys Hc Hall). cbn [negb instantiate Type___init__ bind].
  destruct (ListType_from_obj_loop_leaf n c ys Hc Hall (obj_of (new UnknownType)))
    as (t' & Hloop & Ht'); [left; reflexivity |].
  rewrite Hloop. cbn [bind].
  unfold call. cbn [pos positional keywords bind_args dict_get bind].
  unfold ListType___init__.
  destruct t'; try discriminate Ht'. reflexivity.
Qed.

(** C6, as amended.  [type_of] returns a descriptor, without failing, for
    every value that is not a collection (list, tuple, set, frozenset) and
    holds none in a dict: the descriptor of the class registered for the class
    of the value, built by its [from_obj], and an [Object] descriptor when no
    class is registered.  For a collection, [ListType.from_obj] assigns the
    elements one after the other and raises when an element is assigned with
    the result [Never]; it returns a [List] descriptor for a collection of
    strings, of numbers, of booleans, or of objects of unregistered classes. *)
Theorem type_of_returns_unless_a_collection_fails :
  (forall x : PyObj,
      collection_free x = true ->
      exists p, Returns (fun py => TypeRegistry_type_of py x) (PyWB (handler_of x) p)) /\
  (forall (x : PyObj) (ys : list PyObj) (c : WBClass),
      is_list_like x = true ->
      py_iter x = Ok ys ->
      leaf_class c = true ->
      Forall (fun y => handler_of y = c) ys ->
      Returns (fun py => TypeRegistry_type_of py x) (T' ListType)) /\
  (forall (py : Interp) (elm_type item bad : PyObj) (rest : list PyObj),
      i_assign py elm_type item = Ok bad ->
      isinstance bad NeverType = true ->
      ListType_from_obj_loop py elm_type (item :: rest) = Raise TypeError).
Proof.
  split; [exact type_of_collection_free |].
  split; [exact type_of_collection_of_leaf_values |].
  intros py elm_type item bad rest Hitem Hbad.
  cbn [ListType_from_obj_loop]. rewrite Hitem. cbn [bind]. rewrite Hbad. reflexivity.
Qed.

(** A dict of a number and of an object of an unregistered class, and a tuple
    of three numbers. *)
Lemma type_of_returns_unless_a_collection_fails_witness :
  (exists p, Returns (fun py => TypeRegistry_type_of py
                                  (PyDict [("a", PyInt 1); ("b", PyInstance "Foo" 1)]))
                     (PyWB DictType p)) /\
  Returns (fun py => TypeRegistry_type_of py (PyTuple [PyInt 1; PyFloat 3 (-1); PyInt 2]))
          (T' ListType).
Proof.
  split.
  - apply (proj1 type_of_returns_unless_a_collection_fails
             (PyDict [("a", PyInt 1); ("b", PyInstance "Foo" 1)])).
    reflexivity.
  - apply (proj1 (proj2 type_of_returns_unless_a_collection_fails)
             (PyTuple [PyInt 1; PyFloat 3 (-1); PyInt 2])
             [PyInt 1; PyFloat 3 (-1); PyInt 2] NumberType);
      [reflexivity | reflexivity | reflexivity | repeat constructor].
Defined.

(** C6 as stated fails: [type_of([1, "x"])] raises the [TypeError] of
    [ListType.from_obj]. *)
Lemma type_of_raises_on_mixed_list :
  Raises (fun py => TypeRegistry_type_of py (PyList [PyInt 1; PyStr "x"])) TypeError.
Proof. evaluate 5. Qed.

(* ------------------------------------------------------------------------- *)
(** * Further properties of the module *)

(* ------------------------------------------------------------------------- *)
(** ** The registry *)

Lemma PyClass_eqb_eq (a b : PyClass) : PyClass_eqb a b = true <-> a = b.
Proof.
  unfold PyClass_eqb; destruct (PyClass_eq_dec a b); split; congruence.
Qed.

Lemma PyClass_eqb_neq (a b : PyClass) : PyClass_eqb a b = false <-> a <> b.
Proof.
  unfold PyClass_eqb; destruct (PyClass_eq_dec a b); split; congruence.
Qed.

Lemma name_get_update_same (t : list (string * WBClass)) (k : string) (v : WBClass) :
  name_get k (name_update t k v) = Some v.
Proof.
  induction t as [|[k' v'] t IH]; simpl.
  - rewrite String.eqb_refl; reflexivity.
  - destruct (String.eqb k k') eqn:E; simpl; rewrite E; [reflexivity | exact IH].
Qed.

Lemma name_get_update_other (t : list (string * WBClass)) (k k0 : string) (v : WBClass) :
  k0 <> k -> name_get k0 (name_update t k v) = name_get k0 t.
Proof.
  intro Hk; induction t as [|[k' v'] t IH]; simpl.
  - destruct (String.eqb_spec k0 k); [contradiction | reflexivity].
  - destruct (String.eqb_spec k k') as [<- | Hk']; simpl.
    + destruct (String.eqb_spec k0 k); [contradiction | reflexivity].
    + rewrite IH; reflexivity.
Qed.

Lemma class_get_update_same (t : list (PyClass * WBClass)) (k : PyClass) (v : WBClass) :
  class_get k (class_update t k v) = Some v.
Proof.
  induction t as [|[k' v'] t IH]; simpl.
  - replace (PyClass_eqb k k) with true by (symmetry; apply PyClass_eqb_eq; reflexivity).
    reflexivity.
  - destruct (PyClass_eqb k k') eqn:E; simpl; rewrite E; [reflexivity | exact IH].
Qed.

Lemma class_get_update_other (t : list (PyClass * WBClass)) (k k0 : PyClass) (v : WBClass) :
  k0 <> k -> class_get k0 (class_update t k v) = class_get k0 t.
Proof.
  intro Hk. apply PyClass_eqb_neq in Hk.
  induction t as [|[k' v'] t IH]; simpl.
  - rewrite Hk; reflexivity.
  - destruct (PyClass_eqb k k') eqn:E; simpl.
    + apply PyClass_eqb_eq in E; subst k'. rewrite Hk; reflexivity.
    + rewrite IH; reflexivity.
Qed.

Lemma class_get_fold_update (ks : list PyClass) (v : WBClass)
    (t : list (PyClass * WBClass)) (k : PyClass) :
  class_get k (fold_left (fun t _type => class_update t _type v) ks t) =
  if existsb (PyClass_eqb k) ks then Some v else class_get k t.
Proof.
  revert t; induction ks as [|k' ks IH]; intro t; simpl.
  - reflexivity.
  - rewrite IH. destruct (existsb (PyClass_eqb k) ks).
    + rewrite orb_true_r; reflexivity.
    + rewrite orb_false_r. destruct (PyClass_eqb k k') eqn:E.
      * apply PyClass_eqb_eq in E; subst k'. apply class_get_update_same.
      * apply class_get_update_other. apply PyClass_eqb_neq; exact E.
Qed.

Lemma existsb_PyClass_eqb_In (k : PyClass) (ks : list PyClass) :
  existsb (PyClass_eqb k) ks = true <-> In k ks.
Proof.
  rewrite existsb_exists; split.
  - intros (x & Hin & E). apply PyClass_eqb_eq in E; subst; exact Hin.
  - intro Hin; exists k; split; [exact Hin | apply PyClass_eqb_eq; reflexivity].
Qed.

(** X1.  After [TypeRegistry.add(wb_type)] on any registry, the name of the
    class resolves to the class and every native class of [wb_type.types]
    resolves to it, whatever was registered for them before; every other name
    and every other native class resolves as it did before. *)
Theorem TypeRegistry_add_lookup (r : Registry) (wb_type : WBClass) :
  name_get (name wb_type) (_types_by_name (TypeRegistry_add r wb_type)) = Some wb_type /\
  (forall s, s <> name wb_type ->
     name_get s (_types_by_name (TypeRegistry_add r wb_type)) = name_get s (_types_by_name r)) /\
  (forall k, In k (types wb_type) ->
     class_get k (_types_by_class (TypeRegistry_add r wb_type)) = Some wb_type) /\
  (forall k, ~ In k (types wb_type) ->
     class_get k (_types_by_class (TypeRegistry_add r wb_type)) = class_get k (_types_by_class r)).
Proof.
  unfold TypeRegistry_add; cbn [_types_by_name _types_by_class].
  split; [apply name_get_update_same |].
  split; [intros s Hs; apply name_get_update_other; exact Hs |].
  split; intros k Hk; rewrite class_get_fold_update.
  - apply existsb_PyClass_eqb_In in Hk. rewrite Hk. reflexivity.
  - destruct (existsb (PyClass_eqb k) (types wb_type)) eqn:E; [| reflexivity].
    apply existsb_PyClass_eqb_In in E. contradiction.
Qed.

(** Registering [NumberType] in the empty registry. *)
Lemma TypeRegistry_add_lookup_witness :
  class_get cls_float (_types_by_class (TypeRegistry_add (mkRegistry [] []) NumberType))
  = Some NumberType /\
  class_get cls_str (_types_by_class (TypeRegistry_add (mkRegistry [] []) NumberType))
  = None.
Proof.
  split.
  - apply (proj1 (proj2 (proj2 (TypeRegistry_add_lookup (mkRegistry [] []) NumberType)))).
    right; left; reflexivity.
  - apply (proj2 (proj2 (proj2 (TypeRegistry_add_lookup (mkRegistry [] []) NumberType)))).
    intros [H | [H | []]]; discriminate H.
Defined.

(** X2.  Once the module is loaded, a string resolves to a class in
    [types_by_name] exactly when it is the name of that class, and a native
    class resolves to a descriptor class in [types_by_class] exactly when it
    is listed in the [types] of that class: no registration has overwritten
    another. *)
Theorem registry_after_load :
  (forall (s : string) (c : WBClass), name_get s types_by_name = Some c <-> s = name c) /\
  (forall (k : PyClass) (c : WBClass), class_get k types_by_class = Some c <-> In k (types c)).
Proof.
  split.
  - intros s c; split.
    + change types_by_name with
        [("never", NeverType); ("any", AnyType); ("unknown", UnknownType);
         ("none", NoneType); ("text", StringType); ("number", NumberType);
         ("boolean", BooleanType); ("list", ListType); ("dictionary", DictType);
         ("union", UnionType); ("object", ObjectType); ("const", ConstType)].
      cbn [name_get].
      repeat match goal with
             | |- (if String.eqb s ?k then _ else _) = _ -> _ =>
                 destruct (String.eqb_spec s k) as [-> | _];
                 [intro H; injection H as <-; reflexivity |]
             end.
      intro H; discriminate H.
    + intros ->; destruct c; reflexivity.
  - intros k c; split.
    + destruct k, c; cbn; intro H; first [discriminate H | tauto].
    + destruct k, c; cbn; intro H; first [reflexivity | intuition discriminate].
Qed.

(* ------------------------------------------------------------------------- *)
(** ** [type_from_dtype] *)

(** X3.  [type_from_dtype] raises [TypeError] on every object that is neither
    a descriptor nor a class: [issubclass(dtype, Type)] is evaluated before
    the tests for a list and a dict, so a list, a dict or a constant never
    reaches the branch written for it. *)
Theorem type_from_dtype_rejects_shorthand (py : Interp) (dtype : PyObj) :
  isinstance_Type dtype = false ->
  is_class dtype = false ->
  TypeRegistry_type_from_dtype py dtype = Raise TypeError.
Proof.
  intros Ht Hc. unfold TypeRegistry_type_from_dtype. rewrite Ht.
  destruct dtype; first [discriminate Ht | discriminate Hc | reflexivity].
Qed.

(** The list [[NumberType()]], the dict [{"a": NumberType()}] and [5]. *)
Lemma type_from_dtype_rejects_shorthand_witness :
  TypeRegistry_type_from_dtype (interp 3) (PyList [T NumberType]) = Raise TypeError /\
  TypeRegistry_type_from_dtype (interp 3) (PyDict [("a", T NumberType)]) = Raise TypeError /\
  TypeRegistry_type_from_dtype (interp 3) (PyInt 5) = Raise TypeError.
Proof.
  split; [| split]; apply type_from_dtype_rejects_shorthand; reflexivity.
Defined.

(** X4.  [type_from_dtype] hands a descriptor back as it is; on a descriptor
    class it returns a new instance built without arguments, except on
    [ObjectType], whose constructor needs its class name, a [TypeError]; on
    any other class it returns a new instance of the handler registered for
    that class, and an [Object] descriptor when there is none. *)
Theorem type_from_dtype_on_classes (py : Interp) :
  (forall t : WBType, TypeRegistry_type_from_dtype py t = Ok (obj_of t)) /\
  (forall c : WBClass,
      TypeRegistry_type_from_dtype py (PyClassObj (cls_wb c)) =
      match c with
      | ObjectType => Raise TypeError
      | ConstType | UnionType | ListType | DictType => Ok (T' c)
      | _ => Ok (T c)
      end) /\
  (forall k : PyClass,
      (forall c, k <> cls_wb c) ->
      TypeRegistry_type_from_dtype py (PyClassObj k) =
      match class_get k types_by_class with
      | Some ListType => Ok (T' ListType)
      | Some DictType => Ok (T' DictType)
      | Some handler => Ok (T handler)
      | None => Ok (T' ObjectType)
      end).
Proof.
  split; [intro t; reflexivity |].
  split.
  - intro c; destruct c; reflexivity.
  - intros k Hk; destruct k; try reflexivity.
    exfalso; exact (Hk c eq_refl).
Qed.

(** The classes [int] and [complex]. *)
Lemma type_from_dtype_on_classes_witness :
  TypeRegistry_type_from_dtype (interp 2) (PyClassObj cls_int) = Ok (T NumberType) /\
  TypeRegistry_type_from_dtype (interp 2) (PyClassObj (cls_other "complex"))
  = Ok (T' ObjectType).
Proof.
  split.
  - apply (proj2 (proj2 (type_from_dtype_on_classes (interp 2))) cls_int).
    intros c H; discriminate H.
  - apply (proj2 (proj2 (type_from_dtype_on_classes (interp 2))) (cls_other "complex")).
    intros c H; discriminate H.
Defined.

(* ------------------------------------------------------------------------- *)
(** ** [OptionalType] and collections that hold [None] *)

Lemma OptionalType_raises (n : nat) (dtype : PyObj) :
  OptionalType (interp (1 + n)) dtype = Raise TypeError.
Proof. reflexivity. Qed.

(** X5.  [OptionalType] raises [TypeError] on every argument, since it hands
    [ConvertableToType] to [type_from_dtype]; hence [type_of] raises
    [TypeError] on every list, tuple, set or frozenset that holds [None]. *)
Theorem collection_with_None_raises :
  (forall dtype : PyObj, Raises (fun py => OptionalType py dtype) TypeError) /\
  (forall (x : PyObj) (ys : list PyObj),
      is_list_like x = true ->
      py_iter x = Ok ys ->
      existsb is_None ys = true ->
      Raises (fun py => TypeRegistry_type_of py x) TypeError).
Proof.
  split.
  - intro dtype; exists 1; intro n; apply OptionalType_raises.
  - intros x ys Hx Hiter Hnone. exists 1; intro n.
    assert (Hof : TypeRegistry_type_of (interp (1 + n)) x
                  = ListType_from_obj (interp (1 + n)) ListType x).
    { destruct x; first [discriminate Hx | reflexivity]. }
    rewrite Hof. unfold ListType_from_obj.
    replace (is_None x) with false by (destruct x; first [discriminate Hx | reflexivity]).
    rewrite Hx, Hiter. cbn [negb orb bind]. rewrite Hnone.
    cbn [negb instantiate Type___init__ bind]. rewrite OptionalType_raises. reflexivity.
Qed.

(** The list [[1, None]]. *)
Lemma collection_with_None_raises_witness :
  Raises (fun py => TypeRegistry_type_of py (PyList [PyInt 1; PyNone])) TypeError.
Proof.
  apply (proj2 collection_with_None_raises (PyList [PyInt 1; PyNone]) [PyInt 1; PyNone]);
    reflexivity.
Defined.

(* ------------------------------------------------------------------------- *)
(** ** [_flatten_union_types] *)

Lemma flatten_loop_spec (py : Interp) (xs : list PyObj) :
  _flatten_union_types_loop py xs =
  if existsb (fun x => isinstance x UnionType) xs then Raise KeyError else Ok xs.
Proof.
  induction xs as [|x xs IH]; cbn [_flatten_union_types_loop existsb].
  - reflexivity.
  - destruct (isinstance x UnionType) eqn:E.
    + destruct x; try discriminate E. reflexivity.
    + cbn [bind orb]. rewrite IH.
      destruct (existsb (fun x0 => isinstance x0 UnionType) xs); reflexivity.
Qed.

(** X6.  [_flatten_union_types] returns a list that holds no [Union]
    descriptor unchanged, and raises [KeyError] on a list that holds one,
    wherever it stands: the branches of a union cannot be read back. *)
Theorem flatten_union_types_spec (py : Interp) (xs : list PyObj) :
  _flatten_union_types py (PyList xs) =
  if existsb (fun x => isinstance x UnionType) xs then Raise KeyError else Ok xs.
Proof. unfold _flatten_union_types; cbn [py_iter bind]. apply flatten_loop_spec. Qed.

(* ------------------------------------------------------------------------- *)
(** ** Assignment to [Union], [List] and [Dictionary] descriptors *)

(** X7.  No assignment to a [Union], [List] or [Dictionary] descriptor returns
    a descriptor of that class.  [assign] and [assign_type] of a [Union] raise
    [KeyError] on every argument; those of a [List] raise [KeyError] on a
    collection and on a [List] descriptor and return [Never] on anything else;
    those of a [Dictionary] raise [KeyError] on a dict and on a [Dictionary]
    descriptor and return [Never] on anything else. *)
Theorem compound_descriptors_accept_nothing (py : Interp) (p : option Dict) (x : PyObj) :
  assign py (PyWB UnionType p) x = Raise KeyError /\
  assign_type py (PyWB UnionType p) x = Raise KeyError /\
  assign py (PyWB ListType p) x
  = (if is_list_like x then Raise KeyError else Ok (T NeverType)) /\
  assign_type py (PyWB ListType p) x
  = (if isinstance x ListType then Raise KeyError else Ok (T NeverType)) /\
  assign py (PyWB DictType p) x
  = (if is_dict x then Raise KeyError else Ok (T NeverType)) /\
  assign_type py (PyWB DictType p) x
  = (if isinstance x DictType then Raise KeyError else Ok (T NeverType)).
Proof.
  split; [reflexivity |].
  split; [apply UnionType_assign_type_KeyError |].
  split; [cbn; unfold ListType_assign; destruct (is_list_like x); reflexivity |].
  split; [cbn; unfold ListType_assign_type; destruct (isinstance x ListType); reflexivity |].
  split; [cbn; unfold DictType_assign; destruct (is_dict x); reflexivity |].
  cbn; unfold DictType_assign_type; destruct (isinstance x DictType); reflexivity.
Qed.

(* ------------------------------------------------------------------------- *)
(** ** The inherited [assign] and [assign_type] *)

Lemma default_assign_type_at (n : nat) (c : WBClass) (p : option Dict) (x : PyObj) :
  default_class c = true ->
  assign_type (interp (1 + n)) (PyWB c p) x =
  Ok (if isinstance x c then obj_of (snd (params (mkType c p))) else T NeverType).
Proof.
  intro Hc.
  destruct c; try discriminate Hc;
    (destruct x as [ | | | | | | | | | | | c' p' | ];
     try reflexivity; destruct c'; reflexivity).
Qed.

(** X8.  For a descriptor of class [None], [String], [Number], [Boolean],
    [Object] or [Const], [assign_type] returns the descriptor itself when the
    argument is a descriptor of the same class and [Never] on any other
    argument.  Nothing but the class is compared: an [Object] descriptor
    accepts every [Object] descriptor and a [Const] every [Const]. *)
Theorem default_assign_type_compares_classes (c : WBClass) (p : option Dict) (x : PyObj) :
  default_class c = true ->
  Returns (fun py => assign_type py (PyWB c p) x)
          (if isinstance x c then obj_of (snd (params (mkType c p))) else T NeverType).
Proof.
  intro Hc. exists 1; intro n. apply default_assign_type_at, Hc.
Qed.

(** [Object] accepts [Object]; [Number] rejects [Boolean]. *)
Lemma default_assign_type_compares_classes_witness :
  Returns (fun py => assign_type py (T' ObjectType) (T' ObjectType)) (T' ObjectType) /\
  Returns (fun py => assign_type py (T NumberType) (T BooleanType)) (T NeverType).
Proof.
  split.
  - apply (default_assign_type_compares_classes ObjectType (Some []) (T' ObjectType)).
    reflexivity.
  - apply (default_assign_type_compares_classes NumberType None (T BooleanType)).
    reflexivity.
Defined.

Lemma Type_assign_unfold (n : nat) (self : WBType) (x : PyObj) :
  Type_assign (interp (S n)) self x =
  bind (TypeRegistry_type_of (interp n) x) (fun wb_type => assign_type (interp n) self wb_type).
Proof. reflexivity. Qed.

(** X9.  For a descriptor of class [None], [String], [Number], [Boolean],
    [Object] or [Const] and a value on which [type_of] returns, [assign]
    returns the descriptor itself when the class registered for the value's
    class ([Object] when none is) is the class of the descriptor, and [Never]
    otherwise.  So [Number] accepts an [int] and a [float] and rejects a
    [bool]. *)
Theorem default_assign_follows_type_of (c : WBClass) (p : option Dict) (x d : PyObj) :
  default_class c = true ->
  Returns (fun py => TypeRegistry_type_of py x) d ->
  Returns (fun py => assign py (PyWB c p) x)
          (if WBClass_eqb (handler_of x) c
           then obj_of (snd (params (mkType c p))) else T NeverType).
Proof.
  intros Hc Hd.
  assert (Hclass : isinstance d c = WBClass_eqb (handler_of x) c).
  { destruct Hd as [k H]. specialize (H 0). apply type_of_inv in H.
    destruct H as [-> | ->]; reflexivity. }
  rewrite <- Hclass.
  destruct Hd as [k H].
  exists (S (S k)); intro n.
  assert (Hassign : assign (interp (S (S k) + n)) (PyWB c p) x
                    = Type_assign (interp (S (S k) + n)) (mkType c p) x).
  { destruct c; first [discriminate Hc | reflexivity]. }
  rewrite Hassign.
  change (S (S k) + n) with (S (S (k + n))). rewrite Type_assign_unfold.
  replace (S (k + n)) with (k + S n) at 1 by lia.
  rewrite H. cbn [bind].
  apply (default_assign_type_at (k + n) c p d Hc).
Qed.

(** [Number] on [True] and on [1.5]. *)
Lemma default_assign_follows_type_of_witness :
  Returns (fun py => assign py (T NumberType) (PyBool true)) (T NeverType) /\
  Returns (fun py => assign py (T NumberType) (PyFloat 3 (-1))) (T' NumberType).
Proof.
  split.
  - apply (default_assign_follows_type_of NumberType None (PyBool true) (T BooleanType));
      [reflexivity | exists 1; intro n; reflexivity].
  - apply (default_assign_follows_type_of NumberType None (PyFloat 3 (-1)) (T NumberType));
      [reflexivity | exists 1; intro n; reflexivity].
Defined.

(** X10.  For every value on which [type_of] returns, [Unknown.assign] returns
    what [type_of] returns, except for [None], where it returns [Never]. *)
Theorem Unknown_assign_is_type_of (p : option Dict) (x d : PyObj) :
  Returns (fun py => TypeRegistry_type_of py x) d ->
  Returns (fun py => assign py (PyWB UnknownType p) x)
          (if is_None x then T NeverType else d).
Proof.
  intros [k H]. exists (S (S k)); intro n.
  change (assign (interp (S (S k) + n)) (PyWB UnknownType p) x)
    with (Type_assign (interp (S (S (k + n)))) (mkType UnknownType p) x).
  rewrite Type_assign_unfold.
  replace (S (k + n)) with (k + S n) by lia.
  rewrite H. cbn [bind].
  specialize (H 0). apply type_of_inv in H.
  unfold assign_type, UnknownType_assign_type.
  destruct H as [-> | ->]; unfold T, T', isinstance;
    rewrite handler_of_None; destruct (is_None x); reflexivity.
Qed.

(** The dict [{"a": "x"}]. *)
Lemma Unknown_assign_is_type_of_witness :
  Returns (fun py => assign py (T UnknownType) (PyDict [("a", PyStr "x")])) (T' DictType).
Proof.
  apply (Unknown_assign_is_type_of None (PyDict [("a", PyStr "x")]) (T' DictType)).
  exists 2; intro n; reflexivity.
Defined.

(** X17.  A descriptor returned by [type_of] is of the class registered for
    the class of the value, or of class [Object]: [type_of] never returns a
    [Never], [Any], [Unknown], [Union] or [Const] descriptor. *)
Theorem type_of_result_class (x d : PyObj) :
  Returns (fun py => TypeRegistry_type_of py x) d ->
  isinstance d (handler_of x) = true /\
  In (handler_of x)
     [NoneType; StringType; NumberType; BooleanType; ListType; DictType; ObjectType].
Proof.
  intros [k H]. specialize (H 0). apply type_of_inv in H. split.
  - destruct H as [-> | ->]; cbn; apply WBClass_eqb_refl.
  - destruct x; cbn; tauto.
Qed.

(** The tuple [(1, 2)]. *)
Lemma type_of_result_class_witness :
  isinstance (T' ListType) (handler_of (PyTuple [PyInt 1; PyInt 2])) = true /\
  In (handler_of (PyTuple [PyInt 1; PyInt 2]))
     [NoneType; StringType; NumberType; BooleanType; ListType; DictType; ObjectType].
Proof.
  apply (type_of_result_class (PyTuple [PyInt 1; PyInt 2]) (T' ListType)).
  exists 5; intro n; reflexivity.
Defined.

(* ------------------------------------------------------------------------- *)
(** ** The union-resolution procedure *)

Lemma mapM_length {A B : Type} (f : A -> Res B) (xs : list A) (ys : list B) :
  mapM f xs = Ok ys -> length ys = length xs.
Proof.
  revert ys; induction xs as [|x xs IH]; intros ys H; cbn [mapM] in H.
  - injection H as <-; reflexivity.
  - apply bind_Ok_inv in H as (y & _ & H).
    apply bind_Ok_inv in H as (ys' & Hys & H).
    injection H as <-. cbn [length]. rewrite (IH ys' Hys). reflexivity.
Qed.

Lemma mapM_combine {A B : Type} (f : A -> Res B) (xs : list A) (ys : list B) :
  mapM f xs = Ok ys -> Forall (fun kv => f (snd kv) = Ok (fst kv)) (combine ys xs).
Proof.
  revert ys; induction xs as [|x xs IH]; intros ys H; cbn [mapM] in H.
  - injection H as <-; constructor.
  - apply bind_Ok_inv in H as (y & Hy & H).
    apply bind_Ok_inv in H as (ys' & Hys & H).
    injection H as <-. cbn [combine]. constructor; [exact Hy | apply IH, Hys].
Qed.

Lemma mapM_of_keyed {A B : Type} (f : A -> Res B) (l : list (B * A)) :
  Forall (fun kv => f (snd kv) = Ok (fst kv)) l ->
  mapM f (map snd l) = Ok (map fst l).
Proof.
  induction 1 as [|[k v] l Hkv _ IH]; cbn [map mapM fst snd] in *.
  - reflexivity.
  - rewrite Hkv. cbn [bind]. rewrite IH. reflexivity.
Qed.

Lemma insert_by_key_length (k : string) (v : PyObj) (l : list (string * PyObj)) :
  length (insert_by_key k v l) = S (length l).
Proof.
  induction l as [|[k' v'] l IH]; cbn [insert_by_key].
  - reflexivity.
  - destruct (String.leb k k'); cbn [length]; [reflexivity | rewrite IH; reflexivity].
Qed.

Lemma insert_by_key_In (k : string) (v x : PyObj) (l : list (string * PyObj)) :
  In x (map snd (insert_by_key k v l)) <-> x = v \/ In x (map snd l).
Proof.
  induction l as [|[k' v'] l IH]; cbn [insert_by_key].
  - cbn; intuition.
  - destruct (String.leb k k'); cbn [map snd In] in *; [intuition | rewrite IH; intuition].
Qed.

Lemma insert_by_key_sorted (k : string) (v : PyObj) (l : list (string * PyObj)) :
  Sorted key_le (map fst l) -> Sorted key_le (map fst (insert_by_key k v l)).
Proof.
  induction l as [|[k' v'] l IH]; cbn [insert_by_key map fst]; intro Hs.
  - repeat constructor.
  - destruct (String.leb k k') eqn:E; cbn [map fst].
    + constructor; [exact Hs | constructor; exact E].
    + inversion Hs as [|? ? Hs' Hhd]; subst.
      constructor; [apply IH, Hs' |].
      destruct l as [|[k2 v2] l]; cbn [insert_by_key map fst] in *.
      * constructor. destruct (String.leb_total k k') as [H | H]; [congruence | exact H].
      * destruct (String.leb k k2); cbn [map fst].
        -- constructor. destruct (String.leb_total k k') as [H | H]; [congruence | exact H].
        -- inversion Hhd; subst. constructor; assumption.
Qed.

Lemma insert_by_key_Forall (P : string * PyObj -> Prop) (k : string) (v : PyObj)
    (l : list (string * PyObj)) :
  P (k, v) -> Forall P l -> Forall P (insert_by_key k v l).
Proof.
  intros Hkv; induction 1 as [|[k' v'] l Hx Hl IH]; cbn [insert_by_key].
  - repeat constructor; exact Hkv.
  - destruct (String.leb k k'); repeat constructor; assumption.
Qed.

Lemma sort_by_key_length (keyed : list (string * PyObj)) :
  length (sort_by_key keyed) = length keyed.
Proof.
  unfold sort_by_key. rewrite length_map.
  induction keyed as [|[k v] keyed IH]; cbn [fold_right fst snd].
  - reflexivity.
  - rewrite insert_by_key_length, IH. reflexivity.
Qed.

Lemma sort_by_key_In (keyed : list (string * PyObj)) (x : PyObj) :
  In x (sort_by_key keyed) <-> In x (map snd keyed).
Proof.
  unfold sort_by_key.
  induction keyed as [|[k v] keyed IH]; cbn [fold_right fst snd map].
  - reflexivity.
  - rewrite insert_by_key_In, IH. cbn [In]. intuition.
Qed.

Lemma isinstance_after_repr (x : PyObj) (c : WBClass) :
  isinstance (after_repr x) c = isinstance x c.
Proof. destruct x as [| | | | | | | | | | |c' [d|]|]; reflexivity. Qed.

Lemma mapM_map_ext {A B C : Type} (f : A -> Res B) (f' : C -> Res B) (g : C -> A)
    (xs : list C) :
  (forall x, f (g x) = f' x) -> mapM f (map g xs) = mapM f' xs.
Proof.
  intro H; induction xs as [|x xs IH]; cbn [map mapM].
  - reflexivity.
  - rewrite H, IH. reflexivity.
Qed.

(** The rendering of an object is the one of the object it leaves. *)
Lemma py_repr_after_repr (py : Interp) :
  (forall x, i_repr py (after_repr x) = i_repr py x) ->
  forall x, py_repr py (after_repr x) = py_repr py x.
Proof.
  intros Hpy x.
  destruct x as [| | | | |xs|xs|xs|xs|d| |c p|]; cbn [after_repr py_repr]; try reflexivity.
  - rewrite (mapM_map_ext (i_repr py) (i_repr py) after_repr xs Hpy). reflexivity.
  - rewrite (mapM_map_ext (i_repr py) (i_repr py) after_repr xs Hpy). reflexivity.
  - rewrite (mapM_map_ext (i_repr py) (i_repr py) after_repr xs Hpy). reflexivity.
  - rewrite (mapM_map_ext (i_repr py) (i_repr py) after_repr xs Hpy). reflexivity.
  - erewrite mapM_map_ext; [reflexivity |].
    intros [k v]; cbn [fst snd]. rewrite Hpy. reflexivity.
  - destruct p; reflexivity.
Qed.

Lemma i_repr_after_repr (n : nat) (x : PyObj) :
  i_repr (interp n) (after_repr x) = i_repr (interp n) x.
Proof.
  revert x; induction n as [|n IH]; intro x.
  - reflexivity.
  - change (i_repr (interp (S n))) with (py_repr (interp n)).
    apply py_repr_after_repr, IH.
Qed.

Lemma py_str_after_repr (n : nat) (x : PyObj) :
  py_str (interp n) (after_repr x) = py_str (interp n) x.
Proof.
  destruct x as [| | | | |xs|xs|xs|xs|d| |c p|];
    try reflexivity; apply (i_repr_after_repr n).
Qed.

Lemma union_assigner_step_count (py : Interp) (obj : PyObj) (mode : bool)
    (st st' : UnionState) (b : PyObj) :
  _union_assigner_step py obj mode st b = Ok st' ->
  length (resolved_types st') + unknown_count st' =
  S (length (resolved_types st) + unknown_count st).
Proof.
  unfold _union_assigner_step.
  destruct (valid st).
  - intro H; injection H as <-; cbn. rewrite length_app; cbn; lia.
  - destruct (isinstance b UnknownType).
    + intro H; injection H as <-; cbn; lia.
    + intro H. apply bind_Ok_inv in H as (a & _ & H).
      destruct (isinstance a NeverType); injection H as <-; cbn;
        rewrite length_app; cbn; lia.
Qed.

Lemma union_assigner_fold_count (py : Interp) (obj : PyObj) (mode : bool)
    (ats : list PyObj) (st st' : UnionState) :
  foldM (_union_assigner_step py obj mode) ats st = Ok st' ->
  length (resolved_types st') + unknown_count st' =
  length ats + (length (resolved_types st) + unknown_count st).
Proof.
  revert st; induction ats as [|b ats IH]; intros st H; cbn [foldM] in H.
  - injection H as <-; reflexivity.
  - apply bind_Ok_inv in H as (st1 & Hstep & H).
    rewrite (IH st1 H), (union_assigner_step_count _ _ _ _ _ _ Hstep). cbn; lia.
Qed.

Lemma union_assigner_unmatched_count (py : Interp) (obj : PyObj) (mode : bool)
    (st st' : UnionState) :
  _union_assigner_unmatched py obj mode st = Ok (Some st') ->
  length (resolved_types st') + unknown_count st' =
  length (resolved_types st) + unknown_count st.
Proof.
  unfold _union_assigner_unmatched.
  destruct (valid st); cbn [negb].
  - intro H; injection H as <-; reflexivity.
  - destruct (Nat.eqb (unknown_count st) 0) eqn:E; [discriminate |].
    apply Nat.eqb_neq in E.
    intro H. apply bind_Ok_inv in H as (t & _ & H).
    destruct (isinstance t NeverType); [discriminate H |].
    injection H as <-; cbn. rewrite length_app; cbn; lia.
Qed.

(** X11.  When [_union_assigner] returns a list of branches, the list has as
    many branches as the list it was given and holds no [Union] descriptor:
    a branch is kept or replaced by what it has become, and an [Unknown]
    branch that is set aside is replaced by the incoming type or put back. *)
Theorem union_assigner_keeps_branch_count
    (n : nat) (ats r : list PyObj) (obj : PyObj) (mode : bool) :
  _union_assigner (interp (S n)) (PyList ats) obj mode = Ok (PyList r) ->
  length r = length ats /\ Forall (fun b => isinstance b UnionType = false) r.
Proof.
  unfold _union_assigner. cbn [py_iter bind].
  intro H.
  apply bind_Ok_inv in H as (st & Hfold & H).
  apply bind_Ok_inv in H as (o & Hun & H).
  destruct o as [st'|]; [| discriminate H].
  apply bind_Ok_inv in H as (us & Hus & H).
  apply bind_Ok_inv in H as (flat & Hflat & H).
  apply bind_Ok_inv in H as (keys & Hkeys & H).
  injection H as <-.
  change (i_flatten_union_types (interp (S n)))
    with (_flatten_union_types (interp n)) in Hflat.
  unfold _flatten_union_types in Hflat. cbn [py_iter bind] in Hflat.
  rewrite flatten_loop_spec in Hflat.
  destruct (existsb (fun x => isinstance x UnionType) (resolved_types st' ++ us)) eqn:E;
    [discriminate Hflat |].
  injection Hflat as <-.
  apply mapM_length in Hus. rewrite length_seq in Hus.
  apply mapM_length in Hkeys.
  apply union_assigner_fold_count in Hfold. cbn in Hfold.
  apply union_assigner_unmatched_count in Hun.
  split.
  - rewrite sort_by_key_length, length_combine, length_map, Hkeys, Nat.min_id, length_app.
    lia.
  - apply Forall_forall. intros b Hb.
    apply (proj1 (sort_by_key_In _ _)) in Hb.
    assert (Hin : exists x, after_repr x = b /\ In x (resolved_types st' ++ us)).
    { apply in_map_iff in Hb as ([k v] & <- & Hkv). apply in_combine_r in Hkv.
      apply in_map_iff in Hkv. exact Hkv. }
    destruct Hin as (x & <- & Hin). rewrite isinstance_after_repr.
    destruct (isinstance x UnionType) eqn:Eb; [| reflexivity].
    assert (existsb (fun x => isinstance x UnionType) (resolved_types st' ++ us) = true).
    { apply existsb_exists. exists x; split; assumption. }
    congruence.
Qed.

(** The value [1] assigned to the branches [String, Unknown, Unknown]. *)
Lemma union_assigner_keeps_branch_count_witness :
  _union_assigner (interp 5) (PyList [T StringType; T UnknownType; T UnknownType])
                  (PyInt 1) false
  = Ok (PyList [T' NumberType; T' StringType; T' UnknownType]) /\
  length [T' NumberType; T' StringType; T' UnknownType] = 3 /\
  Forall (fun b => isinstance b UnionType = false)
         [T' NumberType; T' StringType; T' UnknownType].
Proof.
  assert (H : _union_assigner (interp 5)
                (PyList [T StringType; T UnknownType; T UnknownType]) (PyInt 1) false
              = Ok (PyList [T' NumberType; T' StringType; T' UnknownType])).
  { vm_compute. reflexivity. }
  split; [exact H |].
  exact (union_assigner_keeps_branch_count 4 _ _ _ _ H).
Defined.

(** X12.  When [_union_assigner] returns a list of branches, the branches are
    in the order of their renderings: [str] returns on each of them, and the
    strings it returns are sorted. *)
Theorem union_assigner_result_is_sorted
    (n : nat) (ats r : list PyObj) (obj : PyObj) (mode : bool) :
  _union_assigner (interp (S n)) (PyList ats) obj mode = Ok (PyList r) ->
  exists keys, mapM (py_str (interp (S n))) r = Ok keys /\ Sorted key_le keys.
Proof.
  unfold _union_assigner. cbn [py_iter bind].
  intro H.
  apply bind_Ok_inv in H as (st & _ & H).
  apply bind_Ok_inv in H as (o & _ & H).
  destruct o as [st'|]; [| discriminate H].
  apply bind_Ok_inv in H as (us & _ & H).
  apply bind_Ok_inv in H as (flat & _ & H).
  apply bind_Ok_inv in H as (keys & Hkeys & H).
  injection H as <-.
  assert (Hkeys' : mapM (py_str (interp (S n))) (map after_repr flat) = Ok keys).
  { rewrite <- Hkeys. apply mapM_map_ext. apply py_str_after_repr. }
  clear Hkeys. apply mapM_combine in Hkeys'. rename Hkeys' into Hkeys.
  unfold sort_by_key.
  set (sorted := fold_right (fun kv acc => insert_by_key (fst kv) (snd kv) acc) []
                            (combine keys (map after_repr flat))).
  assert (Hall : Forall (fun kv => py_str (interp (S n)) (snd kv) = Ok (fst kv)) sorted
                 /\ Sorted key_le (map fst sorted)).
  { subst sorted. induction Hkeys as [|[k v] l Hkv _ [IH1 IH2]]; cbn [fold_right fst snd].
    - split; constructor.
    - split.
      + apply insert_by_key_Forall; assumption.
      + apply insert_by_key_sorted; assumption. }
  exists (map fst sorted); split.
  - apply mapM_of_keyed, Hall.
  - apply Hall.
Qed.

(** The value [1] assigned to the branches [String, Unknown, Unknown]. *)
Lemma union_assigner_result_is_sorted_witness :
  exists keys,
    mapM (py_str (interp 5)) [T' NumberType; T' StringType; T' UnknownType] = Ok keys /\
    Sorted key_le keys.
Proof.
  apply (union_assigner_result_is_sorted 4
           [T StringType; T UnknownType; T UnknownType]
           [T' NumberType; T' StringType; T' UnknownType] (PyInt 1) false).
  vm_compute. reflexivity.
Defined.

Lemma union_assigner_fold_after_match (py : Interp) (obj : PyObj) (mode : bool)
    (rest : list PyObj) (rs : list PyObj) (uc : nat) :
  foldM (_union_assigner_step py obj mode) rest (mkUnionState rs true uc) =
  Ok (mkUnionState (rs ++ rest) true uc).
Proof.
  revert rs; induction rest as [|x rest IH]; intro rs; cbn [foldM].
  - rewrite app_nil_r; reflexivity.
  - unfold _union_assigner_step at 1. cbn [valid resolved_types unknown_count bind].
    rewrite IH, <- app_assoc. reflexivity.
Qed.

Lemma union_assigner_fold_rejected (py : Interp) (obj : PyObj) (mode : bool)
    (pre : list PyObj) :
  (mode = true -> isinstance_Type obj = true) ->
  Forall (fun x => isinstance x UnknownType = true \/
                   exists nv, branch_attempt py obj mode x = Ok nv /\
                              isinstance nv NeverType = true) pre ->
  forall (rs : list PyObj) (uc : nat),
  foldM (_union_assigner_step py obj mode) pre (mkUnionState rs false uc) =
  Ok (mkUnionState (rs ++ filter (fun x => negb (isinstance x UnknownType)) pre) false
                   (uc + length (filter (fun x => isinstance x UnknownType) pre))).
Proof.
  intros Hmode Hpre; induction Hpre as [|x pre Hx _ IH]; intros rs uc; cbn [foldM filter].
  - rewrite app_nil_r, Nat.add_0_r; reflexivity.
  - unfold _union_assigner_step at 1. cbn [valid resolved_types unknown_count].
    destruct (isinstance x UnknownType) eqn:E; cbn [negb bind length].
    + rewrite IH. f_equal. f_equal. lia.
    + destruct Hx as [Hx | (nv & Hnv & Hnever)]; [discriminate Hx |].
      unfold branch_attempt in Hnv.
      destruct mode.
      * rewrite (Hmode eq_refl). cbn [py_assert bind]. rewrite Hnv. cbn [bind].
        rewrite Hnever. cbn [bind]. rewrite IH, <- app_assoc. reflexivity.
      * rewrite Hnv. cbn [bind]. rewrite Hnever. cbn [bind].
        rewrite IH, <- app_assoc. reflexivity.
Qed.

Lemma union_assigner_fold_app (py : Interp) (obj : PyObj) (mode : bool)
    (xs ys : list PyObj) (st : UnionState) :
  foldM (_union_assigner_step py obj mode) (xs ++ ys) st =
  bind (foldM (_union_assigner_step py obj mode) xs st)
       (foldM (_union_assigner_step py obj mode) ys).
Proof.
  revert st; induction xs as [|x xs IH]; intro st; cbn [app foldM bind].
  - reflexivity.
  - destruct (_union_assigner_step py obj mode st x); cbn [bind];
      [apply IH | reflexivity ..].
Qed.

(** X13.  The first loop of [_union_assigner] is first-fit.  When the branches
    [pre] are [Unknown] or answer [Never] to the incoming item, and the branch
    [b] after them is not [Unknown] and answers [a], not [Never], then the
    loop ends with: the branches of [pre] that are not [Unknown], unchanged,
    then [a] in the place of [b], then all the branches after [b] unchanged,
    [Unknown] ones included; and the [Unknown] branches of [pre] counted to be
    put back. *)
Theorem union_assigner_first_fit (py : Interp) (obj : PyObj) (mode : bool)
    (pre rest : list PyObj) (b a : PyObj) :
  (mode = true -> isinstance_Type obj = true) ->
  Forall (fun x => isinstance x UnknownType = true \/
                   exists nv, branch_attempt py obj mode x = Ok nv /\
                              isinstance nv NeverType = true) pre ->
  isinstance b UnknownType = false ->
  branch_attempt py obj mode b = Ok a ->
  isinstance a NeverType = false ->
  foldM (_union_assigner_step py obj mode) (pre ++ b :: rest) (mkUnionState [] false 0) =
  Ok (mkUnionState (filter (fun x => negb (isinstance x UnknownType)) pre ++ a :: rest) true
                   (length (filter (fun x => isinstance x UnknownType) pre))).
Proof.
  intros Hmode Hpre Hb Ha Hnever.
  rewrite union_assigner_fold_app,
    (union_assigner_fold_rejected py obj mode pre Hmode Hpre [] 0).
  cbn [bind foldM app Nat.add].
  unfold _union_assigner_step at 1. cbn [valid resolved_types unknown_count].
  rewrite Hb. unfold branch_attempt in Ha.
  destruct mode.
  - rewrite (Hmode eq_refl). cbn [py_assert bind]. rewrite Ha. cbn [bind].
    rewrite Hnever. cbn [bind].
    rewrite union_assigner_fold_after_match, <- app_assoc. reflexivity.
  - rewrite Ha. cbn [bind]. rewrite Hnever. cbn [bind].
    rewrite union_assigner_fold_after_match, <- app_assoc. reflexivity.
Qed.

(** The value [1] and the branches [String, Unknown, Number, Number,
    Unknown]: the first [Number] takes it. *)
Lemma union_assigner_first_fit_witness :
  foldM (_union_assigner_step (interp 4) (PyInt 1) false)
        ([T StringType; T UnknownType] ++ T NumberType :: [T NumberType; T UnknownType])
        (mkUnionState [] false 0) =
  Ok (mkUnionState [T StringType; T' NumberType; T NumberType; T UnknownType] true 1).
Proof.
  apply (union_assigner_first_fit (interp 4) (PyInt 1) false
           [T StringType; T UnknownType] [T NumberType; T UnknownType]
           (T NumberType) (T' NumberType)).
  - discriminate.
  - constructor; [right; exists (T NeverType); split; reflexivity |].
    constructor; [left; reflexivity | constructor].
  - reflexivity.
  - reflexivity.
  - reflexivity.
Defined.

Lemma union_assigner_step_None (n : nat) (t : WBType) (st : UnionState) :
  valid st = false ->
  __class__ t <> NoneType ->
  __class__ t <> UnionType ->
  exists st', _union_assigner_step (interp (3 + n)) PyNone false st (obj_of t) = Ok st'
              /\ valid st' = false.
Proof.
  destruct st as [rs v uc]; destruct t as [c p]; cbn [valid __class__].
  intros -> HN HU.
  destruct c; try (exfalso; apply HN; reflexivity); try (exfalso; apply HU; reflexivity);
    (eexists; split; [reflexivity | reflexivity]).
Qed.

Lemma union_assigner_fold_None (n : nat) (ts : list WBType) :
  Forall (fun t => __class__ t <> NoneType /\ __class__ t <> UnionType) ts ->
  forall st, valid st = false ->
  exists st', foldM (_union_assigner_step (interp (3 + n)) PyNone false) (map obj_of ts) st
              = Ok st'
              /\ valid st' = false.
Proof.
  induction 1 as [|t ts [HN HU] _ IH]; intros st Hst; cbn [map foldM].
  - exists st; split; [reflexivity | exact Hst].
  - destruct (union_assigner_step_None n t st Hst HN HU) as (st1 & Hstep & Hst1).
    rewrite Hstep. cbn [bind]. apply IH, Hst1.
Qed.

Lemma union_assigner_unmatched_None (n : nat) (st : UnionState) :
  valid st = false ->
  _union_assigner_unmatched (interp (3 + n)) PyNone false st = Ok None.
Proof.
  destruct st as [rs v uc]; cbn [valid]; intros ->.
  unfold _union_assigner_unmatched; cbn [valid negb unknown_count].
  destruct (Nat.eqb uc 0); reflexivity.
Qed.

(** X14.  In value mode [_union_assigner] returns [Never] for the value
    [None] on every list of branches that are descriptors of classes other
    than [None] and [Union]: no such branch accepts [None], an [Unknown]
    branch included, and the empty list accepts nothing. *)
Theorem union_assigner_rejects_None (ts : list WBType) :
  Forall (fun t => __class__ t <> NoneType /\ __class__ t <> UnionType) ts ->
  Returns (fun py => _union_assigner py (PyList (map obj_of ts)) PyNone false) (T NeverType).
Proof.
  intro Hts. exists 3; intro n.
  unfold _union_assigner. cbn [py_iter bind].
  destruct (union_assigner_fold_None n ts Hts (mkUnionState [] false 0) eq_refl)
    as (st & Hfold & Hst).
  rewrite Hfold. cbn [bind].
  rewrite (union_assigner_unmatched_None n st Hst). reflexivity.
Qed.

(** The branches [String, Unknown, List]. *)
Lemma union_assigner_rejects_None_witness :
  Returns (fun py => _union_assigner py
                       (PyList (map obj_of [mkType StringType None; mkType UnknownType None;
                                            mkType ListType (Some [])]))
                       PyNone false)
          (T NeverType).
Proof.
  apply union_assigner_rejects_None.
  repeat constructor; discriminate.
Defined.

(* ------------------------------------------------------------------------- *)
(** ** The serialization helpers *)

Lemma mapM_fixes (f : Interp -> PyObj -> Res PyObj) (xs : list PyObj) :
  Forall (fun x => exists k, forall m, k <= m -> f (interp m) x = Ok x) xs ->
  exists k, forall m, k <= m -> mapM (f (interp m)) xs = Ok xs.
Proof.
  induction 1 as [|x xs [k Hx] _ [k' IH]].
  - exists 0; reflexivity.
  - exists (Nat.max k k'); intros m Hm. cbn [mapM].
    rewrite Hx by lia. cbn [bind]. rewrite IH by lia. reflexivity.
Qed.

Lemma map_valuesM_fixes (f : Interp -> PyObj -> Res PyObj) (d : Dict) :
  Forall (fun kv => exists k, forall m, k <= m -> f (interp m) (snd kv) = Ok (snd kv)) d ->
  exists k, forall m, k <= m -> map_valuesM (f (interp m)) d = Ok d.
Proof.
  induction 1 as [|[key v] d [k Hx] _ [k' IH]].
  - exists 0; reflexivity.
  - exists (Nat.max k k'); intros m Hm. cbn [map_valuesM]. cbn [snd] in Hx.
    rewrite Hx by lia. cbn [bind]. rewrite IH by lia. reflexivity.
Qed.

Lemma plain_json_fixed (x : PyObj) :
  plain_json x = true ->
  exists k, forall m, k <= m ->
    _params_obj_to_json_obj (interp m) x = Ok x /\
    _json_obj_to_params_obj (interp m) x = Ok x.
Proof.
  induction x as [ | s | z | m e | b | xs IH | xs _ | xs _ | xs _ | d IH | c | c p _ | c i ]
    using PyObj_ind'; intro Hx; try discriminate Hx;
    try (exists 0; intros; split; reflexivity).
  - (* a list *)
    cbn [plain_json] in Hx. rewrite forallb_forall in Hx.
    assert (H1 : Forall (fun x => exists k, forall m, k <= m ->
                           _params_obj_to_json_obj (interp m) x = Ok x) xs).
    { rewrite Forall_forall in IH |- *. intros x Hin.
      destruct (IH x Hin (Hx x Hin)) as [k Hk]. exists k; intros m Hm; apply Hk, Hm. }
    assert (H2 : Forall (fun x => exists k, forall m, k <= m ->
                           _json_obj_to_params_obj (interp m) x = Ok x) xs).
    { rewrite Forall_forall in IH |- *. intros x Hin.
      destruct (IH x Hin (Hx x Hin)) as [k Hk]. exists k; intros m Hm; apply Hk, Hm. }
    apply mapM_fixes in H1 as [k1 H1]. apply mapM_fixes in H2 as [k2 H2].
    exists (S (Nat.max k1 k2)); intros m Hm.
    destruct m as [|m]; [lia |].
    split.
    + change (_params_obj_to_json_obj (interp (S m)) (PyList xs))
        with (bind (mapM (_params_obj_to_json_obj (interp m)) xs) (fun ys => Ok (PyList ys))).
      rewrite H1 by lia. reflexivity.
    + change (_json_obj_to_params_obj (interp (S m)) (PyList xs))
        with (bind (mapM (_json_obj_to_params_obj (interp m)) xs) (fun ys => Ok (PyList ys))).
      rewrite H2 by lia. reflexivity.
  - (* a dict *)
    cbn [plain_json] in Hx. apply andb_true_iff in Hx as [Hkey Hx].
    apply negb_true_iff in Hkey.
    rewrite forallb_forall in Hx.
    assert (H1 : Forall (fun kv => exists k, forall m, k <= m ->
                           _params_obj_to_json_obj (interp m) (snd kv) = Ok (snd kv)) d).
    { rewrite Forall_forall in IH |- *. intros x Hin.
      destruct (IH x Hin (Hx x Hin)) as [k Hk]. exists k; intros m Hm; apply Hk, Hm. }
    assert (H2 : Forall (fun kv => exists k, forall m, k <= m ->
                           _json_obj_to_params_obj (interp m) (snd kv) = Ok (snd kv)) d).
    { rewrite Forall_forall in IH |- *. intros x Hin.
      destruct (IH x Hin (Hx x Hin)) as [k Hk]. exists k; intros m Hm; apply Hk, Hm. }
    apply map_valuesM_fixes in H1 as [k1 H1]. apply map_valuesM_fixes in H2 as [k2 H2].
    exists (S (Nat.max k1 k2)); intros m Hm.
    destruct m as [|m]; [lia |].
    split.
    + change (_params_obj_to_json_obj (interp (S m)) (PyDict d))
        with (bind (map_valuesM (_params_obj_to_json_obj (interp m)) d)
                   (fun r => Ok (PyDict r))).
      rewrite H1 by lia. reflexivity.
    + unfold _json_obj_to_params_obj. rewrite Hkey.
      change (i_json_obj_to_params_obj (interp (S m)))
        with (_json_obj_to_params_obj (interp m)).
      rewrite H2 by lia. reflexivity.
Qed.

(** X15.  On JSON data that holds no descriptor ([None], strings, numbers,
    booleans, lists, and dicts without the key [wb_type], nested to any
    depth) [_params_obj_to_json_obj] and [_json_obj_to_params_obj] both
    return the data unchanged, and so does decoding what was encoded. *)
Theorem json_helpers_fix_plain_json (x : PyObj) :
  plain_json x = true ->
  Returns (fun py => _params_obj_to_json_obj py x) x /\
  Returns (fun py => _json_obj_to_params_obj py x) x /\
  Returns (fun py => j <- _params_obj_to_json_obj py x ;; _json_obj_to_params_obj py j) x.
Proof.
  intro Hx. destruct (plain_json_fixed x Hx) as [k H].
  repeat split; exists k; intro n.
  - apply H; lia.
  - apply H; lia.
  - rewrite (proj1 (H (k + n) ltac:(lia))). cbn [bind]. apply H; lia.
Qed.

(** The parameters of a constant, [{"val": [1, "a"], "is_set": False}]. *)
Lemma json_helpers_fix_plain_json_witness :
  Returns (fun py => j <- _params_obj_to_json_obj py
                            (PyDict [("val", PyList [PyInt 1; PyStr "a"]);
                                     ("is_set", PyBool false)]) ;;
                     _json_obj_to_params_obj py j)
          (PyDict [("val", PyList [PyInt 1; PyStr "a"]); ("is_set", PyBool false)]).
Proof.
  apply (json_helpers_fix_plain_json
           (PyDict [("val", PyList [PyInt 1; PyStr "a"]); ("is_set", PyBool false)])).
  reflexivity.
Defined.

(** The round trip of a [List] descriptor, by
    [roundtrip_returns_on_other_classes]. *)
Lemma roundtrip_returns_on_other_classes_witness :
  exists p', Returns (fun py => j <- to_json py (PyWB ListType (Some [])) ;;
                               TypeRegistry_type_from_dict py j)
                     (PyWB ListType p').
Proof.
  apply (roundtrip_returns_on_other_classes ListType (Some [])).
  discriminate.
Defined.

(* ------------------------------------------------------------------------- *)
(** ** Checks on arguments *)

(** X18.  [ObjectType()] without a class name is a [TypeError]; [UnionType]
    given anything but [None] or a list fails its assertion, a tuple
    included; [ConstType] asked for a set fails its assertion when the value
    is neither a set nor a list; [ListType.from_obj] raises [TypeError] on a
    value that is not a list, tuple, set or frozenset; [DictType.from_obj] on a
    value that is not a dict fails its assertion, the [TypeError] it builds
    first being dropped. *)
Theorem argument_checks (py : Interp) :
  call py ObjectType no_args = Raise TypeError /\
  (forall x, is_None x = false -> is_list x = false ->
     call py UnionType (pos [x]) = Raise AssertionError) /\
  (forall val flag, truthy flag || is_set val = true -> is_set val || is_list val = false ->
     call py ConstType (pos [val; flag]) = Raise AssertionError) /\
  (forall cls x, is_list_like x = false -> ListType_from_obj py cls x = Raise TypeError) /\
  (forall cls x, is_dict x = false -> DictType_from_obj py cls x = Raise AssertionError).
Proof.
  split; [reflexivity |].
  split.
  { intros x HN HL. unfold call. cbn [pos positional keywords bind_args dict_get bind].
    unfold UnionType___init__, UnionType_wb_types. rewrite HN.
    replace (PyClass_eqb (py_class x) cls_list) with false
      by (destruct x; first [discriminate HL | reflexivity]).
    reflexivity. }
  split.
  { intros val flag H1 H2. unfold call. cbn [pos positional keywords bind_args dict_get bind].
    unfold ConstType___init__. rewrite H1, H2. reflexivity. }
  split.
  { intros cls x Hx. unfold ListType_from_obj. rewrite Hx.
    rewrite orb_true_r. reflexivity. }
  intros cls x Hx. unfold DictType_from_obj. rewrite Hx. reflexivity.
Qed.

(** A tuple given to [UnionType], [ConstType(1, True)], and the value [1]
    given to the two [from_obj]. *)
Lemma argument_checks_witness :
  call (interp 2) UnionType (pos [PyTuple [T NumberType]]) = Raise AssertionError /\
  call (interp 2) ConstType (pos [PyInt 1; PyBool true]) = Raise AssertionError /\
  ListType_from_obj (interp 2) ListType (PyInt 1) = Raise TypeError /\
  DictType_from_obj (interp 2) DictType (PyInt 1) = Raise AssertionError.
Proof.
  split; [apply (proj1 (proj2 (argument_checks (interp 2)))); reflexivity |].
  split; [apply (proj1 (proj2 (proj2 (argument_checks (interp 2))))); reflexivity |].
  split; [apply (proj1 (proj2 (proj2 (proj2 (argument_checks (interp 2)))))); reflexivity |].
  apply (proj2 (proj2 (proj2 (proj2 (argument_checks (interp 2)))))); reflexivity.
Defined.
